(** * Cache-aside metadata lookup of the crypto record service

    A shallow embedding of [main-git.py]: the resolver [fetch_coin_metadata]
    (Redis cache in front of the CoinGecko search endpoint) and the request
    handlers that call it ([create_crypto], [update_crypto], [refresh_crypto]).

    Python values are embedded as the JSON values the program handles;
    raised exceptions are explicit results; the Redis server, the HTTP
    upstream and the [cryptos] table are fields of an explicit [World]
    that every coroutine threads through.  Coroutines run to completion one
    after the other: interleaving of concurrent requests is not modelled.

    Limits of the embedding, stated once:
    - [str] is a sequence of code points below 256; [str.lower] is
      Python's on that range, and so is [str.upper] except at the two
      characters whose capital lies beyond it (see [Str.upper_char]);
    - JSON numbers are integers (Python [float] is left out);
    - the [id] sequence of the table does not run out;
    - the database is reachable, and [print] writes nothing we observe. *)

From Stdlib Require Import ZArith Lia Bool Ascii String List.
From Stdlib Require Import DecimalString DecimalZ DecimalPos DecimalFacts.
From stdpp Require Import base option list strings gmap.

Open Scope string_scope.
Open Scope Z_scope.

(** ** Python strings *)

Module Str.

Definition code (c : ascii) : N := N_of_ascii c.

(** The cased letters among the code points below 256: [A]-[Z] and the
    capitals U+00C0-U+00DE (U+00D7 is the multiplication sign), each 32
    below its small form; [a]-[z] and the small letters U+00E0-U+00FE
    (U+00F7 is the division sign). *)
Definition is_upper (c : ascii) : bool :=
  ((65 <=? code c) && (code c <=? 90)
   || (192 <=? code c) && (code c <=? 222) && negb (code c =? 215))%N.
Definition is_lower (c : ascii) : bool :=
  ((97 <=? code c) && (code c <=? 122)
   || (224 <=? code c) && (code c <=? 254) && negb (code c =? 247))%N.

Definition lower_char (c : ascii) : ascii :=
  if is_upper c then ascii_of_N (code c + 32) else c.

(** The capital of one character is a string: the sharp s (U+00DF) becomes
    [SS].  The micro sign (U+00B5) and the y with diaeresis (U+00FF) have
    their capitals beyond U+00FF (U+039C, U+0178); [upper_char] cannot
    write them and leaves the character, which is not what Python returns:
    a result that depends on the capital of a string is stated for strings
    that are [plain_case]. *)
Definition upper_char (c : ascii) : string :=
  if is_lower c then String (ascii_of_N (code c - 32)) EmptyString
  else if (code c =? 223)%N then "SS"
  else String c EmptyString.

(** [s.lower()] and [s.upper()] *)
Fixpoint lower (s : string) : string :=
  match s with
  | EmptyString => EmptyString
  | String c r => String (lower_char c) (lower r)
  end.

Fixpoint upper (s : string) : string :=
  match s with
  | EmptyString => EmptyString
  | String c r => upper_char c +:+ upper r
  end.

(** No micro sign, sharp s or y with diaeresis: the three characters whose
    capital is not one character of the range. *)
Definition plain_case (s : string) : bool :=
  forallb (fun c => negb ((code c =? 181) || (code c =? 223) || (code c =? 255))%N)
          (list_ascii_of_string s).

(** [sep.join(parts)] *)
Fixpoint join (sep : string) (parts : list string) : string :=
  match parts with
  | [] => ""
  | [p] => p
  | p :: rest => p +:+ sep +:+ join sep rest
  end.

(** Truth value of an [Optional[str]]: [None] and [''] are false. *)
Definition truthy (o : option string) : bool :=
  match o with
  | Some (String _ _) => true
  | _ => false
  end.

(** The letters that come in two cases, capital first: the alphabet and
    the accented letters of the range, listed by code point. *)
Definition letter_pairs : list (ascii * ascii) :=
  combine (list_ascii_of_string "ABCDEFGHIJKLMNOPQRSTUVWXYZ")
          (list_ascii_of_string "abcdefghijklmnopqrstuvwxyz")
  ++ map (fun p => (ascii_of_nat (fst p), ascii_of_nat (snd p)))
       [ (192, 224); (193, 225); (194, 226); (195, 227); (196, 228);
         (197, 229); (198, 230); (199, 231); (200, 232); (201, 233);
         (202, 234); (203, 235); (204, 236); (205, 237); (206, 238);
         (207, 239); (208, 240); (209, 241); (210, 242); (211, 243);
         (212, 244); (213, 245); (214, 246); (216, 248); (217, 249);
         (218, 250); (219, 251); (220, 252); (221, 253); (222, 254) ]%nat.

(** Two characters that are the same letter up to case, and two strings
    that differ at most in the case of their letters: the same length,
    and position by position the same letter. *)
Definition same_letter (a b : ascii) : bool :=
  Ascii.eqb a b
  || existsb (fun p => Ascii.eqb a (fst p) && Ascii.eqb b (snd p)
                       || Ascii.eqb a (snd p) && Ascii.eqb b (fst p))
             letter_pairs.

Fixpoint ci_equal (s t : string) : bool :=
  match s, t with
  | EmptyString, EmptyString => true
  | String a s', String b t' => same_letter a b && ci_equal s' t'
  | _, _ => false
  end.

(** Every character, for proofs by enumeration. *)
Definition all_ascii : list ascii := map ascii_of_nat (seq 0 256).

End Str.

(** ** Exceptions and results *)

Inductive Exn : Type :=
| HTTPException (status_code : Z) (detail : string)
| AttributeError          (* method looked up on a value that lacks it *)
| TypeError               (* iteration over a value that is not iterable *)
| JSONDecodeError         (* [json.loads] / [response.json()] on bad text *)
| TransportError          (* httpx: the request did not complete *)
| RedisConnectionError    (* redis: the server is unreachable *)
| UniqueViolationError    (* the table's UNIQUE(symbol) constraint *)
| DataError               (* a value its column cannot hold *)
| PostgresSyntaxError     (* a statement the server cannot parse *)
| NoSuchRowError.         (* UPDATE of a row that is gone *)

Inductive result (A : Type) : Type :=
| Ok (a : A)
| Raise (e : Exn).
Arguments Ok {A} a.
Arguments Raise {A} e.

Definition rbind {A B} (r : result A) (k : A -> result B) : result B :=
  match r with
  | Ok a => k a
  | Raise e => Raise e
  end.

Declare Scope py_scope.
Delimit Scope py_scope with py.
Notation "x <~ r ;; k" := (rbind r (fun x => k))
  (at level 100, r at next level, right associativity) : py_scope.

(** ** Python values that travel as JSON *)

#[warnings="-register-all"]
Inductive json : Type :=
| JNull
| JBool (b : bool)
| JInt (n : Z)
| JStr (s : string)
| JArr (items : list json)
| JObj (fields : list (string * json)).

Module Py.

(** [bool(v)] *)
Definition truthy (v : json) : bool :=
  match v with
  | JNull => false
  | JBool b => b
  | JInt n => negb (n =? 0)
  | JStr s => negb (String.eqb s "")
  | JArr l => negb (Nat.eqb (length l) 0%nat)
  | JObj l => negb (Nat.eqb (length l) 0%nat)
  end.

(** A [dict] keeps its items in insertion order; a key occurs once. *)
Fixpoint dict_lookup (k : string) (d : list (string * json)) : option json :=
  match d with
  | [] => None
  | (k', v) :: r => if String.eqb k k' then Some v else dict_lookup k r
  end.

(** [d[k] = v] *)
Fixpoint dict_set (k : string) (v : json) (d : list (string * json))
  : list (string * json) :=
  match d with
  | [] => [(k, v)]
  | (k', v') :: r =>
      if String.eqb k k' then (k', v) :: r else (k', v') :: dict_set k v r
  end.

(** [dict(pairs)] *)
Definition dict_of_pairs (pairs : list (string * json)) : list (string * json) :=
  fold_left (fun d kv => dict_set (fst kv) (snd kv) d) pairs [].

(** [v.get(k, default)]: only a [dict] has the method. *)
Definition get (v : json) (k : string) (default : json) : result json :=
  match v with
  | JObj d => Ok (match dict_lookup k d with Some x => x | None => default end)
  | _ => Raise AttributeError
  end.

(** [v.lower()]: only a [str] has the method. *)
Definition lower (v : json) : result string :=
  match v with
  | JStr s => Ok (Str.lower s)
  | _ => Raise AttributeError
  end.

(** [iter(v)]: a list yields its items, a dict its keys, a str its
    characters; nothing else is iterable. *)
Definition iter (v : json) : result (list json) :=
  match v with
  | JArr l => Ok l
  | JObj d => Ok (map (fun kv => JStr (fst kv)) d)
  | JStr s => Ok (map (fun c => JStr (String c "")) (list_ascii_of_string s))
  | _ => Raise TypeError
  end.

End Py.

(** ** [json.dumps] and [json.loads] (default options) *)

Module Json.

Definition dquote : ascii := "034"%char.
Definition backslash : ascii := "092"%char.

Definition hex_digit (n : N) : ascii :=
  if (n <? 10)%N then ascii_of_N (48 + n) else ascii_of_N (87 + n).

(** [ensure_ascii=True]: everything outside [' '..'~'] is escaped. *)
Definition escape_char (c : ascii) : string :=
  let n := Str.code c in
  if Ascii.eqb c dquote then String backslash (String dquote "")
  else if Ascii.eqb c backslash then String backslash (String backslash "")
  else if (n =? 10)%N then String backslash "n"
  else if (n =? 13)%N then String backslash "r"
  else if (n =? 9)%N then String backslash "t"
  else if (n =? 8)%N then String backslash "b"
  else if (n =? 12)%N then String backslash "f"
  else if ((32 <=? n) && (n <=? 126))%N then String c ""
  else String backslash
         ("u00" +:+ String (hex_digit (n / 16)) (String (hex_digit (n mod 16)) "")).

Fixpoint escape (s : string) : string :=
  match s with
  | EmptyString => ""
  | String c r => escape_char c +:+ escape r
  end.

Definition quote (s : string) : string :=
  String dquote (escape s +:+ String dquote "").

Definition dumps_int (n : Z) : string := NilZero.string_of_int (Z.to_int n).

Fixpoint dumps (v : json) : string :=
  match v with
  | JNull => "null"
  | JBool true => "true"
  | JBool false => "false"
  | JInt n => dumps_int n
  | JStr s => quote s
  | JArr l => "[" +:+ Str.join ", " (map dumps l) +:+ "]"
  | JObj d =>
      "{" +:+ Str.join ", " (map (fun kv => quote (fst kv) +:+ ": " +:+ dumps (snd kv)) d)
          +:+ "}"
  end.

(** A value as [json.loads] builds it: no object repeats a key. *)
Fixpoint distinct (keys : list string) : bool :=
  match keys with
  | [] => true
  | k :: r => negb (existsb (String.eqb k) r) && distinct r
  end.

Fixpoint wf (v : json) : bool :=
  match v with
  | JArr l => forallb wf l
  | JObj d => distinct (map fst d) && forallb (fun kv => wf (snd kv)) d
  | _ => true
  end.

(** What may follow a value inside a document: the end, or the comma or
    bracket that closes it. *)
Definition delimited (rest : string) : bool :=
  match rest with
  | EmptyString => true
  | String c _ => Ascii.eqb c "," || Ascii.eqb c "]" || Ascii.eqb c "}"
  end.

(** *** The decoder *)

Definition is_ws (c : ascii) : bool :=
  let n := Str.code c in ((n =? 32) || (n =? 9) || (n =? 10) || (n =? 13))%N.

Fixpoint skip_ws (s : string) : string :=
  match s with
  | String c r => if is_ws c then skip_ws r else s
  | EmptyString => s
  end.

Definition is_digit (c : ascii) : bool :=
  ((48 <=? Str.code c) && (Str.code c <=? 57))%N.

Definition hex_value (c : ascii) : option N :=
  let n := Str.code c in
  if ((48 <=? n) && (n <=? 57))%N then Some (n - 48)%N
  else if ((97 <=? n) && (n <=? 102))%N then Some (n - 87)%N
  else if ((65 <=? n) && (n <=? 70))%N then Some (n - 55)%N
  else None.

(** The character a one-letter escape stands for. *)
Definition unescape (e : ascii) : option ascii :=
  if Ascii.eqb e dquote then Some dquote
  else if Ascii.eqb e backslash then Some backslash
  else if Ascii.eqb e "/" then Some "/"%char
  else if Ascii.eqb e "n" then Some "010"%char
  else if Ascii.eqb e "r" then Some "013"%char
  else if Ascii.eqb e "t" then Some "009"%char
  else if Ascii.eqb e "b" then Some "008"%char
  else if Ascii.eqb e "f" then Some "012"%char
  else None.

(** [\uXXXX] for a code point of the embedding (below 256). *)
Definition unicode_escape (h1 h2 h3 h4 : ascii) : option ascii :=
  match hex_value h1, hex_value h2, hex_value h3, hex_value h4 with
  | Some 0%N, Some 0%N, Some a, Some b => Some (ascii_of_N (16 * a + b))
  | _, _, _, _ => None
  end.

Definition cons_char (c : ascii) (p : string * string) : string * string :=
  (String c (fst p), snd p).

(** [scanstring], entered after the opening quote (strict mode: a raw
    control character is refused). *)
Fixpoint scanstring (s : string) : option (string * string) :=
  match s with
  | EmptyString => None
  | String c r =>
      if Ascii.eqb c dquote then Some ("", r)
      else if Ascii.eqb c backslash then
        match r with
        | String e r' =>
            match unescape e with
            | Some c' => cons_char c' <$> scanstring r'
            | None =>
                if Ascii.eqb e "u" then
                  match r' with
                  | String h1 (String h2 (String h3 (String h4 r''))) =>
                      match unicode_escape h1 h2 h3 h4 with
                      | Some c' => cons_char c' <$> scanstring r''
                      | None => None
                      end
                  | _ => None
                  end
                else None
            end
        | EmptyString => None
        end
      else if (Str.code c <? 32)%N then None
      else cons_char c <$> scanstring r
  end.

Fixpoint take_digits (s : string) : string * string :=
  match s with
  | String c r => if is_digit c then cons_char c (take_digits r) else ("", s)
  | EmptyString => ("", s)
  end.

(** What follows an integer literal must not turn it into a float. *)
Definition float_tail (s : string) : bool :=
  match s with
  | String c _ => Ascii.eqb c "." || Ascii.eqb c "e" || Ascii.eqb c "E"
  | EmptyString => false
  end.

(** The integer part of the number pattern: [0] or a digit run that does
    not start with [0]. *)
Definition scan_digits (s : string) : option (Z * string) :=
  match s with
  | String c r =>
      if Ascii.eqb c "0" then
        if float_tail r then None else Some (0, r)
      else if is_digit c then
        let (ds, r') := take_digits s in
        if float_tail r' then None
        else match NilEmpty.uint_of_string ds with
             | Some d => Some (Z.of_uint d, r')
             | None => None
             end
      else None
  | EmptyString => None
  end.

Definition scan_number (s : string) : option (Z * string) :=
  match s with
  | String "-" r => (fun p => (- fst p, snd p)) <$> scan_digits r
  | _ => scan_digits s
  end.

(** The text after the literal [lit], when [s] starts with it. *)
Fixpoint expect (lit s : string) : option string :=
  match lit, s with
  | EmptyString, _ => Some s
  | String c lit', String c' s' => if Ascii.eqb c c' then expect lit' s' else None
  | String _ _, EmptyString => None
  end.

(** [scan_once] and the two container loops, entered after [{] and [[]
    and their leading blanks. *)
Fixpoint scan_once (fuel : nat) (s : string) {struct fuel}
  : option (json * string) :=
  match fuel with
  | O => None
  | S fuel =>
      match s with
      | String "034" r => (fun p => (JStr (fst p), snd p)) <$> scanstring r
      | String "{" r =>
          match skip_ws r with
          | String "}" r' => Some (JObj [], r')
          | r1 => (fun p => (JObj (Py.dict_of_pairs (fst p)), snd p))
                    <$> scan_members fuel r1
          end
      | String "[" r =>
          match skip_ws r with
          | String "]" r' => Some (JArr [], r')
          | r1 => (fun p => (JArr (fst p), snd p)) <$> scan_items fuel r1
          end
      | String "n" _ => (fun r => (JNull, r)) <$> expect "null" s
      | String "t" _ => (fun r => (JBool true, r)) <$> expect "true" s
      | String "f" _ => (fun r => (JBool false, r)) <$> expect "false" s
      | _ => (fun p => (JInt (fst p), snd p)) <$> scan_number s
      end
  end
with scan_members (fuel : nat) (s : string) {struct fuel}
  : option (list (string * json) * string) :=
  match fuel with
  | O => None
  | S fuel =>
      match s with
      | String "034" r =>
          match scanstring r with
          | Some (key, r1) =>
              match skip_ws r1 with
              | String ":" r2 =>
                  match scan_once fuel (skip_ws r2) with
                  | Some (v, r3) =>
                      match skip_ws r3 with
                      | String "}" r4 => Some ([(key, v)], r4)
                      | String "," r4 =>
                          (fun p => ((key, v) :: fst p, snd p))
                            <$> scan_members fuel (skip_ws r4)
                      | _ => None
                      end
                  | None => None
                  end
              | _ => None
              end
          | None => None
          end
      | _ => None
      end
  end
with scan_items (fuel : nat) (s : string) {struct fuel}
  : option (list json * string) :=
  match fuel with
  | O => None
  | S fuel =>
      match scan_once fuel s with
      | Some (v, r1) =>
          match skip_ws r1 with
          | String "]" r2 => Some ([v], r2)
          | String "," r2 =>
              (fun p => (v :: fst p, snd p)) <$> scan_items fuel (skip_ws r2)
          | _ => None
          end
      | None => None
      end
  end.

(** [json.loads(text)]: one value, blanks around it, nothing after. *)
Definition loads (text : string) : result json :=
  match scan_once (S (String.length text)) (skip_ws text) with
  | Some (v, rest) =>
      match skip_ws rest with
      | EmptyString => Ok v
      | _ => Raise JSONDecodeError
      end
  | None => Raise JSONDecodeError
  end.

(** The text of one member of an object. *)
Definition member (kv : string * json) : string :=
  quote (fst kv) +:+ ": " +:+ dumps (snd kv).

(** The first character of a printed value: not a blank, and not the
    bracket that closes an array. *)
Definition opens_value (c : ascii) : bool := negb (is_ws c) && negb (Ascii.eqb c "]").

(** What the round trip asks of one value: printed in front of any
    delimited text, it is read back and the text is left. *)
Definition roundtrips (v : json) : Prop :=
  forall fuel rest,
    delimited rest = true -> wf v = true ->
    (String.length (dumps v) <= fuel)%nat ->
    scan_once fuel (dumps v +:+ rest) = Some (v, rest).

End Json.

(** ** The world the coroutines run in *)

Module Redis.

(** A key of the server: its string value and, when it was set with
    [ex=], its expiry instant.  The server drops a key once the clock is
    past that instant: at the instant itself the key is still read. *)
Record entry : Type := { value : string; expires_at : option Z }.

Record server : Type := { reachable : bool; keys : gmap string entry }.

Definition live (now : Z) (e : entry) : bool :=
  match expires_at e with
  | None => true
  | Some t => now <=? t
  end.

(** GET: the value of a key that exists and has not expired. *)
Definition read (now : Z) (srv : server) (key : string) : option string :=
  match keys srv !! key with
  | Some e => if live now e then Some (value e) else None
  | None => None
  end.

(** SET key value EX seconds *)
Definition write (now : Z) (key val : string) (ex : Z) (srv : server) : server :=
  {| reachable := reachable srv;
     keys := <[key := {| value := val; expires_at := Some (now + ex) |}]> (keys srv) |}.

End Redis.

Module Httpx.

(** A response that arrived: its status and its body as [response.json()]
    reads it ([None] when the body is not JSON). *)
Record Response : Type := { status_code : Z; body : option json }.

(** One request as the network answers it: the seconds it took, and the
    response, or [None] when the request did not complete (connection
    failure, timeout). *)
Record exchange : Type := { elapsed : N; outcome : option Response }.

Definition json (r : Response) : result json :=
  match body r with
  | Some v => Ok v
  | None => Raise JSONDecodeError
  end.

End Httpx.

(** The [cryptos] table: [id] is the serial primary key, [symbol] is
    UNIQUE NOT NULL, [name] is a nullable string, [metadata] is JSON. *)
Module Crypto.

Record t : Type := { id : Z; symbol : string; name : option string; metadata : json }.

End Crypto.

Module CryptoCreate.
Record t : Type := { symbol : string }.
End CryptoCreate.

Module CryptoUpdate.
Record t : Type := { symbol : option string }.
End CryptoUpdate.

(** What the program asks of its collaborators, in order. *)
Inductive Event : Type :=
| RedisGet (key : string)
| RedisSet (key value : string) (ex : Z)
| HttpGet (url : string).

Record World : Type := {
  now : Z;                                       (* wall clock, seconds *)
  redis_client : option Redis.server;            (* the global; None before startup *)
  upstream : nat -> string -> Httpx.exchange;    (* answer to the n-th request, by URL *)
  cryptos : list Crypto.t;                       (* rows of the table *)
  next_id : Z;                                   (* the table's id sequence *)
  trace : list Event
}.

Definition is_http (e : Event) : bool :=
  match e with HttpGet _ => true | _ => false end.
Definition is_redis_set (e : Event) : bool :=
  match e with RedisSet _ _ _ => true | _ => false end.

(** Number of external-source calls and of cache writes recorded in a
    trace. *)
Definition http_calls (t : list Event) : nat := length (List.filter is_http t).
Definition redis_writes (t : list Event) : nat := length (List.filter is_redis_set t).

Definition log (e : Event) (w : World) : World :=
  {| now := now w; redis_client := redis_client w; upstream := upstream w;
     cryptos := cryptos w; next_id := next_id w; trace := trace w ++ [e] |}.

Definition set_redis (srv : Redis.server) (w : World) : World :=
  {| now := now w; redis_client := Some srv; upstream := upstream w;
     cryptos := cryptos w; next_id := next_id w; trace := trace w |}.

Definition set_table (rows : list Crypto.t) (next : Z) (w : World) : World :=
  {| now := now w; redis_client := redis_client w; upstream := upstream w;
     cryptos := rows; next_id := next; trace := trace w |}.

(** Time passing, during a request or between two operations. *)
Definition advance (d : Z) (w : World) : World :=
  {| now := now w + d; redis_client := redis_client w; upstream := upstream w;
     cryptos := cryptos w; next_id := next_id w; trace := trace w |}.

(** The entry the server holds under a key, expired or not. *)
Definition cache_entry (w : World) (key : string) : option Redis.entry :=
  match redis_client w with
  | Some srv => Redis.keys srv !! key
  | None => None
  end.

(** ** Coroutines: state passing with exceptions *)

Definition M (A : Type) : Type := World -> result A * World.

Definition ret {A} (a : A) : M A := fun w => (Ok a, w).
Definition raise {A} (e : Exn) : M A := fun w => (Raise e, w).
Definition lift {A} (r : result A) : M A := fun w => (r, w).
Definition bind {A B} (m : M A) (k : A -> M B) : M B :=
  fun w =>
    match m w with
    | (Ok a, w') => k a w'
    | (Raise e, w') => (Raise e, w')
    end.

Notation "x <- m ;; k" := (bind m (fun x => k))
  (at level 100, m at next level, right associativity) : py_scope.
Notation "m ;;; k" := (bind m (fun _ => k))
  (at level 100, right associativity) : py_scope.

Open Scope py_scope.

(** [await redis_client.get(key)] *)
Definition redis_get (key : string) : M (option string) :=
  fun w =>
    match redis_client w with
    | None => (Raise AttributeError, w)
    | Some srv =>
        if Redis.reachable srv
        then (Ok (Redis.read (now w) srv key), log (RedisGet key) w)
        else (Raise RedisConnectionError, log (RedisGet key) w)
    end.

(** [await redis_client.set(key, value, ex=ex)] *)
Definition redis_set (key value : string) (ex : Z) : M unit :=
  fun w =>
    match redis_client w with
    | None => (Raise AttributeError, w)
    | Some srv =>
        if Redis.reachable srv
        then (Ok tt, log (RedisSet key value ex)
                       (set_redis (Redis.write (now w) key value ex srv) w))
        else (Raise RedisConnectionError, log (RedisSet key value ex) w)
    end.

(** [async with httpx.AsyncClient() as client: await client.get(url)] *)
Definition httpx_get (url : string) : M Httpx.Response :=
  fun w =>
    let x := upstream w (http_calls (trace w)) url in
    let w' := log (HttpGet url) (advance (Z.of_N (Httpx.elapsed x)) w) in
    match Httpx.outcome x with
    | Some r => (Ok r, w')
    | None => (Raise TransportError, w')
    end.

(** ** The resolver *)

Definition redis_detail : string := "Redis client není k dispozici".
Definition upstream_detail : string := "Chyba při volání Coingecko API".

Definition cache_key (symbol : string) : string := "coingecko:" +:+ Str.lower symbol.
Definition search_url (symbol : string) : string :=
  "https://api.coingecko.com/api/v3/search?query=" +:+ symbol.

(** [next((coin for coin in coins if
          coin.get("symbol", "").lower() == symbol.lower()), None)]
    over the items [coins] yields. *)
Fixpoint next_match (symbol : string) (coins : list json) : result json :=
  match coins with
  | [] => Ok JNull
  | coin :: rest =>
      s <~ Py.get coin "symbol" (JStr "") ;;
      l <~ Py.lower s ;;
      if String.eqb l (Str.lower symbol) then Ok coin else next_match symbol rest
  end.

Definition select_coin (symbol : string) (coins : json) : result json :=
  items <~ Py.iter coins ;; next_match symbol items.

Definition fetch_coin_metadata (symbol : string) : M json :=
  fun w0 =>
    (match redis_client w0 with
     | None => raise (HTTPException 500 redis_detail)
     | Some _ =>
         let key := cache_key symbol in
         cached <- redis_get key ;;
         match cached with
         | Some (String c r) => lift (Json.loads (String c r))
         | _ =>
             let url := search_url symbol in
             response <- httpx_get url ;;
             if negb (Httpx.status_code response =? 200)
             then raise (HTTPException 502 upstream_detail)
             else
               data <- lift (Httpx.json response) ;;
               coins <- lift (Py.get data "coins" (JArr [])) ;;
               coin_info <- lift (select_coin symbol coins) ;;
               (if Py.truthy coin_info
                then redis_set key (Json.dumps coin_info) 3600
                else ret tt) ;;;
               ret coin_info
         end
     end) w0.

(** ** The table, as Gino drives it *)

Definition find_symbol (s : string) (rows : list Crypto.t) : option Crypto.t :=
  find (fun r => String.eqb (Crypto.symbol r) s) rows.
Definition find_id (i : Z) (rows : list Crypto.t) : option Crypto.t :=
  find (fun r => Crypto.id r =? i) rows.

(** A Python value bound to a string column. *)
Definition as_text (v : json) : result (option string) :=
  match v with
  | JStr s => Ok (Some s)
  | JNull => Ok None
  | _ => Raise DataError
  end.

(** [Crypto.query.where(Crypto.symbol == s).gino.first()] *)
Definition query_symbol_first (s : string) : M (option Crypto.t) :=
  fun w => (Ok (find_symbol s (cryptos w)), w).

(** The [id] column is a 32-bit integer. *)
Definition int32 (i : Z) : bool := (-2147483648 <=? i) && (i <=? 2147483647).

(** [Crypto.get(crypto_id)]: the row with that primary key, if there is
    one.  A key that does not fit the column is refused by the driver
    before the query is sent; no row of the table holds such a key. *)
Definition Crypto_get (crypto_id : Z) : M (option Crypto.t) :=
  fun w =>
    match find_id crypto_id (cryptos w) with
    | Some crypto => (Ok (Some crypto), w)
    | None => if int32 crypto_id then (Ok None, w) else (Raise DataError, w)
    end.

(** [Crypto.create(symbol=..., name=..., metadata=...)] *)
Definition Crypto_create (symbol : string) (name metadata : json) : M Crypto.t :=
  fun w =>
    match as_text name with
    | Raise e => (Raise e, w)
    | Ok nm =>
        match find_symbol symbol (cryptos w) with
        | Some _ => (Raise UniqueViolationError, set_table (cryptos w) (next_id w + 1) w)
        | None =>
            let row := {| Crypto.id := next_id w; Crypto.symbol := symbol;
                          Crypto.name := nm; Crypto.metadata := metadata |} in
            (Ok row, set_table (cryptos w ++ [row]) (next_id w + 1) w)
        end
    end.

(** One [column=value] of an update, applied to the instance. *)
Definition assign (r : Crypto.t) (kv : string * json) : result Crypto.t :=
  let (col, v) := kv in
  if String.eqb col "symbol" then
    match v with
    | JStr s => Ok {| Crypto.id := Crypto.id r; Crypto.symbol := s;
                      Crypto.name := Crypto.name r; Crypto.metadata := Crypto.metadata r |}
    | _ => Raise DataError
    end
  else if String.eqb col "name" then
    nm <~ as_text v ;;
    Ok {| Crypto.id := Crypto.id r; Crypto.symbol := Crypto.symbol r;
          Crypto.name := nm; Crypto.metadata := Crypto.metadata r |}
  else if String.eqb col "metadata" then
    Ok {| Crypto.id := Crypto.id r; Crypto.symbol := Crypto.symbol r;
          Crypto.name := Crypto.name r; Crypto.metadata := v |}
  else Raise AttributeError.

Fixpoint assign_all (r : Crypto.t) (values : list (string * json)) : result Crypto.t :=
  match values with
  | [] => Ok r
  | kv :: rest => r' <~ assign r kv ;; assign_all r' rest
  end.

Definition replace_row (r : Crypto.t) (rows : list Crypto.t) : list Crypto.t :=
  map (fun x => if Crypto.id x =? Crypto.id r then r else x) rows.

(** Another row already holds the symbol. *)
Definition symbol_taken (r : Crypto.t) (rows : list Crypto.t) : bool :=
  existsb (fun x => String.eqb (Crypto.symbol x) (Crypto.symbol r)
                    && negb (Crypto.id x =? Crypto.id r)) rows.

(** [crypto.update(values).apply()], the values given by keyword: the
    row with the instance's id takes the listed columns, and the instance
    with it.  Without any value the UPDATE that is sent has an empty SET
    list, and the server refuses it. *)
Definition Crypto_update_apply (crypto : Crypto.t) (values : list (string * json))
  : M Crypto.t :=
  fun w =>
    match values with
    | [] => (Raise PostgresSyntaxError, w)
    | _ :: _ =>
        match assign_all crypto values with
        | Raise e => (Raise e, w)
        | Ok crypto' =>
            match find_id (Crypto.id crypto) (cryptos w) with
            | None => (Raise NoSuchRowError, w)
            | Some _ =>
                if symbol_taken crypto' (cryptos w) then (Raise UniqueViolationError, w)
                else (Ok crypto', set_table (replace_row crypto' (cryptos w)) (next_id w) w)
            end
        end
    end.

Arguments Crypto_update_apply : simpl never.

(** ** The request handlers *)

Definition duplicate_detail : string := "Kryptoměna se stejným symbolem již existuje".
Definition unresolved_detail : string :=
  "Kryptoměna se zadaným symbolem nebyla nalezena na Coingecko".
Definition unresolved_refresh_detail : string :=
  "Kryptoměna se zadaným symbolem nebyla nalezena při refreshi".
Definition absent_detail : string := "Kryptoměna nenalezena".

(** POST /cryptos *)
Definition create_crypto (crypto : CryptoCreate.t) : M Crypto.t :=
  existing <- query_symbol_first (Str.upper (CryptoCreate.symbol crypto)) ;;
  match existing with
  | Some _ => raise (HTTPException 409 duplicate_detail)
  | None =>
      metadata <- fetch_coin_metadata (CryptoCreate.symbol crypto) ;;
      if negb (Py.truthy metadata)
      then raise (HTTPException 404 unresolved_detail)
      else
        name <- lift (Py.get metadata "name" JNull) ;;
        Crypto_create (Str.upper (CryptoCreate.symbol crypto)) name metadata
  end.

(** PUT /cryptos/{crypto_id} *)
Definition update_crypto (crypto_id : Z) (crypto_data : CryptoUpdate.t) : M Crypto.t :=
  found <- Crypto_get crypto_id ;;
  match found with
  | None => raise (HTTPException 404 absent_detail)
  | Some crypto =>
      update_data <-
        (match CryptoUpdate.symbol crypto_data with
         | Some (String c r) =>
             let symbol := String c r in
             metadata <- fetch_coin_metadata symbol ;;
             if negb (Py.truthy metadata)
             then raise (HTTPException 404 unresolved_detail)
             else
               name <- lift (Py.get metadata "name" JNull) ;;
               ret [("symbol", JStr (Str.upper symbol)); ("name", name);
                    ("metadata", metadata)]
         | _ => ret []
         end) ;;
      Crypto_update_apply crypto update_data
  end.

(** POST /cryptos/{crypto_id}/refresh *)
Definition refresh_crypto (crypto_id : Z) : M Crypto.t :=
  found <- Crypto_get crypto_id ;;
  match found with
  | None => raise (HTTPException 404 absent_detail)
  | Some crypto =>
      metadata <- fetch_coin_metadata (Crypto.symbol crypto) ;;
      if negb (Py.truthy metadata)
      then raise (HTTPException 404 unresolved_refresh_detail)
      else
        name <- lift (Py.get metadata "name" JNull) ;;
        Crypto_update_apply crypto [("name", name); ("metadata", metadata)]
  end.

(** GET /cryptos.  [Crypto.query.gino.all()] is a SELECT without ORDER BY:
    it returns every row, in an order the server chooses.  The handler is
    the relation between a world and the outcomes it may have there. *)
Definition list_cryptos (w : World) (out : result (list Crypto.t) * World) : Prop :=
  exists rows, Permutation rows (cryptos w) /\ out = (Ok rows, w).

(** GET /cryptos/{crypto_id} *)
Definition get_crypto (crypto_id : Z) : M Crypto.t :=
  found <- Crypto_get crypto_id ;;
  match found with
  | None => raise (HTTPException 404 absent_detail)
  | Some crypto => ret crypto
  end.

(** [crypto.delete()] *)
Definition Crypto_delete (crypto : Crypto.t) : M unit :=
  fun w =>
    (Ok tt, set_table (List.filter (fun x => negb (Crypto.id x =? Crypto.id crypto))
                                   (cryptos w))
                      (next_id w) w).

(** DELETE /cryptos/{crypto_id} *)
Definition delete_crypto (crypto_id : Z) : M unit :=
  found <- Crypto_get crypto_id ;;
  match found with
  | None => raise (HTTPException 404 absent_detail)
  | Some crypto => Crypto_delete crypto
  end.

(** ** The specification's vocabulary *)

(** A candidate exposes a [symbol] field: it is an object whose [symbol]
    is a string. *)
Definition symbol_field (c : json) : option string :=
  match c with
  | JObj d =>
      match Py.dict_lookup "symbol" d with
      | Some (JStr s) => Some s
      | _ => None
      end
  | _ => None
  end.

Definition exposes_symbol (c : json) : bool :=
  match symbol_field c with Some _ => true | None => false end.

(** Selection as the specification words it: the first candidate whose
    [symbol] field equals the queried symbol up to letter case. *)
Definition symbol_matches (symbol : string) (c : json) : bool :=
  match symbol_field c with
  | Some s => Str.ci_equal s symbol
  | None => false
  end.

Definition spec_select (symbol : string) (candidates : list json) : option json :=
  find (symbol_matches symbol) candidates.

(** The lookup of [symbol]'s key is served by the cache with [cached]:
    the server answers and the value passes the resolver's test
    [if cached:], that is, it is not the empty string. *)
Definition cache_hit (w : World) (symbol cached : string) : Prop :=
  exists srv, redis_client w = Some srv /\ Redis.reachable srv = true /\
              Redis.read (now w) srv (cache_key symbol) = Some cached /\
              cached <> "".

(** The cache answers the lookup of [symbol]'s key and has nothing to
    serve: no readable entry, or an empty one. *)
Definition cache_miss (w : World) (symbol : string) : Prop :=
  exists srv, redis_client w = Some srv /\ Redis.reachable srv = true /\
              Str.truthy (Redis.read (now w) srv (cache_key symbol)) = false.

(** The keys of the cache accesses recorded in a trace, in order. *)
Definition cache_keys (t : list Event) : list string :=
  flat_map (fun e => match e with
                     | RedisGet key => [key]
                     | RedisSet key _ _ => [key]
                     | HttpGet _ => []
                     end) t.

(** The cache backend cannot be used: the client was never created, or
    its server is unreachable. *)
Definition cache_unavailable (w : World) : Prop :=
  redis_client w = None \/
  exists srv, redis_client w = Some srv /\ Redis.reachable srv = false.

(** The answer the network holds for the next search of [symbol]. *)
Definition next_exchange (w : World) (symbol : string) : Httpx.exchange :=
  upstream w (http_calls (trace w)) (search_url symbol).

(** The next search for [symbol] completes after [dt] seconds with status
    200 and a JSON object whose [coins] are the ordered candidates, each
    exposing a [symbol] field. *)
Definition source_returns (w : World) (symbol : string) (dt : N) (coins : list json)
  : Prop :=
  exists data, next_exchange w symbol
               = {| Httpx.elapsed := dt;
                    Httpx.outcome := Some {| Httpx.status_code := 200;
                                             Httpx.body := Some (JObj data) |} |}
               /\ Py.dict_lookup "coins" data = Some (JArr coins)
               /\ Json.wf (JObj data) = true
               /\ forallb exposes_symbol coins = true.

(** The world once a miss has gone to the source and come back. *)
Definition after_search (symbol : string) (w : World) : World :=
  log (HttpGet (search_url symbol))
      (advance (Z.of_N (Httpx.elapsed (next_exchange w symbol)))
               (log (RedisGet (cache_key symbol)) w)).

(** The world once the matched candidate has been written back. *)
Definition after_store (symbol : string) (coin : json) (w : World) : World :=
  let w2 := after_search symbol w in
  match redis_client w2 with
  | Some srv =>
      log (RedisSet (cache_key symbol) (Json.dumps coin) 3600)
          (set_redis (Redis.write (now w2) (cache_key symbol) (Json.dumps coin) 3600 srv) w2)
  | None => w2
  end.

(** What the body of a 200 response resolves to. *)
Definition pick (symbol : string) (response : Httpx.Response) : result json :=
  data <~ Httpx.json response ;;
  coins <~ Py.get data "coins" (JArr []) ;;
  select_coin symbol coins.

(** [m] changes neither the table nor the answers of the network. *)
Definition keeps_table {A} (m : M A) : Prop :=
  forall w, cryptos (snd (m w)) = cryptos w /\ next_id (snd (m w)) = next_id w
            /\ upstream (snd (m w)) = upstream w.

(** The resolver's outcomes by name. *)
Definition NotFound (r : result json) : Prop :=
  exists v, r = Ok v /\ Py.truthy v = false.
Definition UpstreamUnavailable (e : Exn) : Prop :=
  exists detail, e = HTTPException 502 detail.
Definition CacheUnavailable (e : Exn) : Prop :=
  e = HTTPException 500 redis_detail \/ e = RedisConnectionError.

(** The table's constraints: [id] is a key, and so is [symbol]. *)
Definition table_ok (rows : list Crypto.t) : Prop :=
  NoDup (map Crypto.id rows) /\ NoDup (map Crypto.symbol rows).

(** ** Sample data *)

Definition btc2 : json :=
  JObj [("id", JStr "bitcoin-2"); ("name", JStr "Bitcoin 2"); ("symbol", JStr "BTC2")].
Definition btc : json :=
  JObj [("id", JStr "bitcoin"); ("name", JStr "Bitcoin"); ("symbol", JStr "BTC");
        ("market_cap_rank", JInt 1)].
Definition eth : json :=
  JObj [("id", JStr "ethereum"); ("name", JStr "Ethereum"); ("symbol", JStr "ETH")].
Definition search_body (coins : list json) : json :=
  JObj [("coins", JArr coins); ("exchanges", JArr [])].

Definition answers (o : option Httpx.Response) : nat -> string -> Httpx.exchange :=
  fun _ _ => {| Httpx.elapsed := 2; Httpx.outcome := o |}.
Definition ok_with (coins : list json) : option Httpx.Response :=
  Some {| Httpx.status_code := 200; Httpx.body := Some (search_body coins) |}.

Definition world_with (srv : option Redis.server) (rows : list Crypto.t)
  (up : nat -> string -> Httpx.exchange) : World :=
  {| now := 1000; redis_client := srv; upstream := up;
     cryptos := rows; next_id := 1 + Z.of_nat (length rows); trace := [] |}.

Definition empty_redis : Redis.server :=
  {| Redis.reachable := true; Redis.keys := ∅ |}.
Definition redis_holding (key val : string) : Redis.server :=
  {| Redis.reachable := true;
     Redis.keys := {[ key := {| Redis.value := val; Redis.expires_at := Some 4000 |} ]} |}.

Definition btc_row : Crypto.t :=
  {| Crypto.id := 1; Crypto.symbol := "BTC"; Crypto.name := Some "Bitcoin";
     Crypto.metadata := btc |}.

(** A candidate whose symbol starts with a small accented letter
    (U+00E9, whose capital is U+00C9). *)
Definition ete : json :=
  JObj [("id", JStr "ete"); ("name", JStr "Ete");
        ("symbol", JStr (String (ascii_of_nat 233) "te"))].

(** An empty cache and an empty table in front of a source that offers
    [coins]. *)
Definition w_offering (coins : list json) : World :=
  world_with (Some empty_redis) [] (answers (ok_with coins)).

Definition w_fresh : World :=
  world_with (Some empty_redis) [] (answers (ok_with [btc2; btc])).
Definition w_cached : World :=
  world_with (Some (redis_holding "coingecko:btc" (Json.dumps btc))) [] (answers None).
Definition w_unlisted : World :=
  world_with (Some empty_redis) [btc_row] (answers (ok_with [btc2])).
Definition w_timeout : World :=
  world_with (Some empty_redis) [btc_row] (answers None).
Definition w_no_client : World :=
  world_with None [] (answers (ok_with [btc2; btc])).
Definition w_tracking_btc : World :=
  world_with (Some empty_redis) [btc_row] (answers (ok_with [btc2; btc])).

(** ** Vocabulary for the rest of the code *)

(** A candidate the selection can inspect without raising: an object
    whose [symbol], when it has one, is a string. *)
Definition symbol_ok (c : json) : bool :=
  match c with
  | JObj d =>
      match Py.dict_lookup "symbol" d with
      | None | Some (JStr _) => true
      | Some _ => false
      end
  | _ => false
  end.

(** What the table's constraints and its id sequence guarantee together:
    keys are unique and every id in use is below the next one handed out. *)
Definition table_inv (w : World) : Prop :=
  table_ok (cryptos w) /\ Forall (fun r => Crypto.id r < next_id w) (cryptos w).

(** [m] keeps the table's guarantees. *)
Definition keeps_inv {A} (m : M A) : Prop :=
  forall w, table_inv w -> table_inv (snd (m w)).

(** The row [Crypto.create] inserts in world [w]. *)
Definition created_row (w : World) (symbol : string) (name : option string)
  (metadata : json) : Crypto.t :=
  {| Crypto.id := next_id w; Crypto.symbol := Str.upper symbol;
     Crypto.name := name; Crypto.metadata := metadata |}.

(** The events one call of the resolver can add to the trace. *)
Definition resolver_events (symbol : string) (r : result json) (events : list Event)
  : Prop :=
  events = []
  \/ events = [RedisGet (cache_key symbol)]
  \/ events = [RedisGet (cache_key symbol); HttpGet (search_url symbol)]
  \/ exists coin,
       r = Ok coin /\
       events = [RedisGet (cache_key symbol); HttpGet (search_url symbol);
                 RedisSet (cache_key symbol) (Json.dumps coin) 3600].

(** A search answered with status 200 and the JSON value [data]. *)
Definition source_answers (w : World) (symbol : string) (data : option json) : Prop :=
  exists response,
    Httpx.outcome (next_exchange w symbol) = Some response /\
    Httpx.status_code response = 200 /\ Httpx.body response = data.

(** More sample data: a candidate without a [symbol], one whose
    [symbol] is null, a row whose name and metadata are out of date. *)
Definition unnamed_coin : json := JObj [("id", JStr "mystery")].
Definition odd_coin : json := JObj [("id", JStr "odd"); ("symbol", JNull)].
Definition eth_row : Crypto.t :=
  {| Crypto.id := 2; Crypto.symbol := "ETH"; Crypto.name := Some "Ethereum";
     Crypto.metadata := eth |}.
Definition stale_row : Crypto.t :=
  {| Crypto.id := 1; Crypto.symbol := "BTC"; Crypto.name := None;
     Crypto.metadata := JNull |}.

Definition answers_body (body : option json) : nat -> string -> Httpx.exchange :=
  answers (Some {| Httpx.status_code := 200; Httpx.body := body |}).

Definition w_tracking_both : World :=
  world_with (Some empty_redis) [btc_row; eth_row] (answers (ok_with [btc; eth])).
Definition w_listing_eth : World :=
  world_with (Some empty_redis) [btc_row] (answers (ok_with [btc; eth])).
Definition w_stale : World :=
  world_with (Some empty_redis) [stale_row] (answers (ok_with [btc])).
Definition w_unnamed : World :=
  world_with (Some empty_redis) [] (answers (ok_with [unnamed_coin; btc])).
Definition w_malformed : World :=
  world_with (Some empty_redis) [] (answers (ok_with [btc2; odd_coin; btc])).
Definition w_no_coins : World :=
  world_with (Some empty_redis) [] (answers_body (Some (JObj [("exchanges", JArr [])]))).
Definition w_not_json : World :=
  world_with (Some empty_redis) [] (answers_body None).

(** * Properties *)

(** ** Letter case *)

Module StrFacts.
Import Str.

Lemma all_ascii_complete (a : ascii) : In a all_ascii.
Proof.
  unfold all_ascii. rewrite <- (ascii_nat_embedding a).
  apply in_map, in_seq. pose proof (nat_ascii_bounded a). lia.
Qed.

Lemma enumerate2 (P : ascii -> ascii -> bool) :
  forallb (fun a => forallb (P a) all_ascii) all_ascii = true ->
  forall a b, P a b = true.
Proof.
  intros H a b. rewrite forallb_forall in H.
  specialize (H a (all_ascii_complete a)). rewrite forallb_forall in H.
  apply H, all_ascii_complete.
Qed.

Lemma same_letter_lower (a b : ascii) :
  same_letter a b = Ascii.eqb (lower_char a) (lower_char b).
Proof.
  apply Bool.eqb_prop.
  apply (enumerate2 (fun a b =>
    Bool.eqb (same_letter a b) (Ascii.eqb (lower_char a) (lower_char b)))).
  vm_compute. reflexivity.
Qed.

Lemma ci_equal_lower (s t : string) :
  ci_equal s t = true <-> lower s = lower t.
Proof.
  revert t. induction s as [|a s IH]; intros [|b t]; simpl; try (split; congruence).
  rewrite andb_true_iff, same_letter_lower, Ascii.eqb_eq, IH.
  split; [intros [-> ->]; reflexivity | intros H; injection H; auto].
Qed.

Lemma ci_equal_eqb (s t : string) :
  ci_equal s t = String.eqb (lower s) (lower t).
Proof.
  destruct (ci_equal s t) eqn:E.
  - apply ci_equal_lower in E. rewrite E. symmetry. apply String.eqb_refl.
  - symmetry. apply String.eqb_neq. intros H. apply ci_equal_lower in H. congruence.
Qed.

Lemma ci_equal_length (s t : string) :
  ci_equal s t = true -> String.length s = String.length t.
Proof.
  revert t. induction s as [|a s IH]; intros [|b t]; simpl; try congruence.
  rewrite andb_true_iff. intros [_ H]. f_equal. apply IH, H.
Qed.

End StrFacts.

(** ** Selection *)

Lemma next_match_spec (symbol : string) (coins : list json) :
  forallb exposes_symbol coins = true ->
  next_match symbol coins
  = Ok (match spec_select symbol coins with Some c => c | None => JNull end).
Proof.
  induction coins as [|c coins IH]; simpl; [reflexivity|].
  rewrite andb_true_iff. intros [Hc Hrest].
  unfold exposes_symbol, symbol_matches in *.
  destruct c as [| | | |?|d]; simpl in *; try discriminate.
  destruct (Py.dict_lookup "symbol" d) as [[| | |s| |]|]; simpl in *; try discriminate.
  rewrite StrFacts.ci_equal_eqb.
  destruct (String.eqb (Str.lower s) (Str.lower symbol)); [reflexivity|].
  apply IH, Hrest.
Qed.

Lemma spec_select_sound (symbol : string) (coins : list json) (c : json) :
  spec_select symbol coins = Some c ->
  exists before after s,
    coins = (before ++ c :: after)%list /\
    symbol_field c = Some s /\ Str.ci_equal s symbol = true /\
    Forall (fun c' => symbol_matches symbol c' = false) before.
Proof.
  unfold spec_select. induction coins as [|x coins IH]; simpl; [discriminate|].
  destruct (symbol_matches symbol x) eqn:E.
  - intros [= ->]. exists [], coins.
    unfold symbol_matches in E. destruct (symbol_field c) as [s|]; [|discriminate].
    exists s. repeat split; auto.
  - intros H. destruct (IH H) as (before & after & s & -> & Hs & Hm & Hb).
    exists (x :: before), after, s. repeat split; auto.
Qed.

Lemma exposes_symbol_truthy (c : json) :
  exposes_symbol c = true -> Py.truthy c = true.
Proof.
  unfold exposes_symbol, symbol_field.
  destruct c as [| | | |?|[|kv d]]; simpl; congruence.
Qed.

Lemma spec_select_truthy (symbol : string) (coins : list json) (c : json) :
  spec_select symbol coins = Some c -> Py.truthy c = true.
Proof.
  intros H. destruct (spec_select_sound _ _ _ H) as (_ & _ & s & _ & Hs & _).
  apply exposes_symbol_truthy. unfold exposes_symbol. rewrite Hs. reflexivity.
Qed.

(** ** The resolver, path by path *)

Lemma fetch_no_client (symbol : string) (w : World) :
  redis_client w = None ->
  fetch_coin_metadata symbol w = (Raise (HTTPException 500 redis_detail), w).
Proof. intros H. unfold fetch_coin_metadata. rewrite H. reflexivity. Qed.

Lemma fetch_unreachable (symbol : string) (w : World) (srv : Redis.server) :
  redis_client w = Some srv -> Redis.reachable srv = false ->
  fetch_coin_metadata symbol w
  = (Raise RedisConnectionError, log (RedisGet (cache_key symbol)) w).
Proof.
  intros H Hr. unfold fetch_coin_metadata. rewrite H.
  unfold bind, redis_get. rewrite H, Hr. reflexivity.
Qed.

Lemma fetch_hit (symbol cached : string) (w : World) :
  cache_hit w symbol cached ->
  fetch_coin_metadata symbol w
  = (Json.loads cached, log (RedisGet (cache_key symbol)) w).
Proof.
  intros (srv & H & Hr & Hread & Hne).
  unfold fetch_coin_metadata. rewrite H.
  unfold bind, redis_get. rewrite H, Hr, Hread.
  destruct cached as [|c r]; [congruence|]. reflexivity.
Qed.

Lemma fetch_miss (symbol : string) (w : World) :
  cache_miss w symbol ->
  fetch_coin_metadata symbol w
  = match Httpx.outcome (next_exchange w symbol) with
    | None => (Raise TransportError, after_search symbol w)
    | Some response =>
        if negb (Httpx.status_code response =? 200)
        then (Raise (HTTPException 502 upstream_detail), after_search symbol w)
        else match pick symbol response with
             | Raise e => (Raise e, after_search symbol w)
             | Ok coin_info =>
                 (Ok coin_info,
                  if Py.truthy coin_info then after_store symbol coin_info w
                  else after_search symbol w)
             end
    end.
Proof.
  intros (srv & H & Hr & Hread).
  unfold fetch_coin_metadata. rewrite H.
  unfold bind at 1. unfold redis_get. rewrite H, Hr.
  destruct (Redis.read (now w) srv (cache_key symbol)) as [[|c r]|];
    simpl in Hread; try discriminate.
  all: unfold bind.
  all: unfold httpx_get, after_store, after_search, next_exchange, pick; simpl.
  all: replace (http_calls (trace w ++ [RedisGet (cache_key symbol)]))
         with (http_calls (trace w))
         by (unfold http_calls; rewrite List.filter_app; simpl; rewrite app_nil_r; reflexivity).
  all: destruct (Httpx.outcome _) as [response|]; [|reflexivity].
  all: destruct (negb (Httpx.status_code response =? 200)); [reflexivity|].
  all: unfold lift, rbind.
  all: destruct (Httpx.json response) as [data|e]; [|reflexivity].
  all: destruct (Py.get data "coins" (JArr [])) as [coins|e]; [|reflexivity].
  all: destruct (select_coin symbol coins) as [coin|e]; [|reflexivity].
  all: destruct (Py.truthy coin); [|reflexivity].
  all: unfold redis_set; simpl; rewrite H, Hr; reflexivity.
Qed.

(** ** [json.loads] inverts [json.dumps] *)

Module JsonFacts.
Import Json.

Lemma json_ind' (P : json -> Prop) :
  P JNull -> (forall b, P (JBool b)) -> (forall n, P (JInt n)) ->
  (forall s, P (JStr s)) ->
  (forall l, Forall P l -> P (JArr l)) ->
  (forall d, Forall (fun kv => P (snd kv)) d -> P (JObj d)) ->
  forall v, P v.
Proof.
  intros Hnull Hbool Hint Hstr Harr Hobj.
  fix self 1. intros [| b | n | s | l | d].
  - exact Hnull.
  - apply Hbool.
  - apply Hint.
  - apply Hstr.
  - apply Harr. induction l as [|x l IH]; constructor; [apply self | exact IH].
  - apply Hobj. induction d as [|[k x] d IH]; constructor; [apply self | exact IH].
Qed.

Lemma append_nil (b : string) : "" +:+ b = b.
Proof. reflexivity. Qed.

Lemma append_cons (x : ascii) (a b : string) : String x a +:+ b = String x (a +:+ b).
Proof. reflexivity. Qed.

Lemma length_append (a b : string) :
  String.length (a +:+ b) = (String.length a + String.length b)%nat.
Proof.
  induction a as [|c a IH]; [reflexivity|].
  rewrite append_cons. simpl. rewrite IH. reflexivity.
Qed.

Lemma append_assoc (a b c : string) : (a +:+ b) +:+ c = a +:+ (b +:+ c).
Proof.
  induction a as [|x a IH]; [reflexivity|].
  rewrite !append_cons, IH. reflexivity.
Qed.

(** *** Strings *)

Lemma scanstring_escape_char (c : ascii) (t : string) :
  scanstring (escape_char c +:+ t) = cons_char c <$> scanstring t.
Proof.
  destruct c as [[] [] [] [] [] [] [] []]; reflexivity.
Qed.

Lemma scanstring_escape (s rest : string) :
  scanstring (escape s +:+ String dquote rest) = Some (s, rest).
Proof.
  induction s as [|c s IH]; [reflexivity|].
  simpl escape. rewrite append_assoc, scanstring_escape_char, IH. reflexivity.
Qed.

Lemma scanstring_quote (s rest : string) :
  exists t, quote s +:+ rest = String dquote t /\ scanstring t = Some (s, rest).
Proof.
  exists (escape s +:+ String dquote rest). split.
  - unfold quote. rewrite append_cons, append_assoc. reflexivity.
  - apply scanstring_escape.
Qed.

(** *** Integers *)

Lemma delimited_not_digit (rest : string) :
  delimited rest = true -> take_digits rest = ("", rest) /\ float_tail rest = false.
Proof.
  destruct rest as [|c r]; [split; reflexivity|]. simpl.
  rewrite !orb_true_iff, !Ascii.eqb_eq. intros [[-> | ->] | ->]; split; reflexivity.
Qed.

Lemma take_digits_uint (d : Decimal.uint) (rest : string) :
  delimited rest = true ->
  take_digits (NilEmpty.string_of_uint d +:+ rest) = (NilEmpty.string_of_uint d, rest).
Proof.
  intros Hd. induction d; simpl NilEmpty.string_of_uint;
    rewrite ?append_cons; simpl; rewrite ?IHd; try reflexivity.
  rewrite append_nil. apply delimited_not_digit, Hd.
Qed.

Lemma nzhead_head (u u' : Decimal.uint) : Decimal.nzhead u <> Decimal.D0 u'.
Proof. induction u; simpl; congruence. Qed.

Lemma to_uint_head (p : positive) :
  match Pos.to_uint p with
  | Decimal.Nil | Decimal.D0 _ => False
  | _ => True
  end.
Proof.
  pose proof (DecimalPos.Unsigned.to_of (Pos.to_uint p)) as H.
  rewrite DecimalPos.Unsigned.of_to in H. simpl in H.
  pose proof (DecimalPos.Unsigned.to_uint_nonzero p) as Hz.
  pose proof (DecimalPos.Unsigned.to_uint_nonnil p) as Hn.
  destruct (Pos.to_uint p) as [|u| | | | | | | | |] eqn:E; try exact I; [congruence|].
  rewrite DecimalFacts.unorm_D0 in H. unfold Decimal.unorm in H.
  destruct (Decimal.nzhead u) eqn:En; try congruence.
  exfalso. eapply nzhead_head. eassumption.
Qed.

Lemma scan_digits_pos (p : positive) (rest : string) :
  delimited rest = true ->
  scan_digits (NilEmpty.string_of_uint (Pos.to_uint p) +:+ rest) = Some (Z.pos p, rest).
Proof.
  intros Hd.
  assert (Hz : Z.of_uint (Pos.to_uint p) = Z.pos p).
  { unfold Z.of_uint. rewrite DecimalPos.Unsigned.of_to. reflexivity. }
  pose proof (to_uint_head p) as Hh.
  pose proof (take_digits_uint (Pos.to_uint p) rest Hd) as Ht.
  pose proof (NilEmpty.usu (Pos.to_uint p)) as Hu.
  destruct (delimited_not_digit rest Hd) as [_ Hf].
  destruct (Pos.to_uint p) as [|u|u|u|u|u|u|u|u|u|u]; try contradiction.
  all: simpl NilEmpty.string_of_uint in *; rewrite append_cons in *.
  all: unfold scan_digits; rewrite Ht, Hf, Hu, Hz; reflexivity.
Qed.

Lemma scan_number_dumps (n : Z) (rest : string) :
  delimited rest = true ->
  scan_number (dumps_int n +:+ rest) = Some (n, rest).
Proof.
  intros Hd. destruct (delimited_not_digit rest Hd) as [_ Hf].
  unfold dumps_int. destruct n as [|p|p]; simpl Z.to_int.
  - simpl. rewrite ?append_cons, ?append_nil. simpl. rewrite Hf. reflexivity.
  - pose proof (to_uint_head p) as Hh. pose proof (scan_digits_pos p rest Hd) as Hs.
    unfold NilZero.string_of_int, NilZero.string_of_uint.
    destruct (Pos.to_uint p) as [|u|u|u|u|u|u|u|u|u|u]; try contradiction.
    all: simpl NilEmpty.string_of_uint in *; rewrite append_cons in *.
    all: unfold scan_number; rewrite Hs; reflexivity.
  - pose proof (to_uint_head p) as Hh. pose proof (scan_digits_pos p rest Hd) as Hs.
    unfold NilZero.string_of_int, NilZero.string_of_uint.
    destruct (Pos.to_uint p) as [|u|u|u|u|u|u|u|u|u|u]; try contradiction.
    all: simpl NilEmpty.string_of_uint in *; rewrite !append_cons in *.
    all: unfold scan_number; rewrite Hs; reflexivity.
Qed.

(** An integer literal starts with a sign or a digit, so [scan_once]
    hands it to [scan_number]. *)
Lemma scan_once_number (fuel : nat) (c : ascii) (r : string) :
  is_digit c || Ascii.eqb c "-" = true ->
  scan_once (S fuel) (String c r)
  = (fun p => (JInt (fst p), snd p)) <$> scan_number (String c r).
Proof.
  destruct c as [[] [] [] [] [] [] [] []]; intros H; try discriminate H; reflexivity.
Qed.

Lemma dumps_int_head (n : Z) (rest : string) :
  exists c r, dumps_int n +:+ rest = String c r /\
              is_digit c || Ascii.eqb c "-" = true /\ opens_value c = true.
Proof.
  unfold dumps_int. destruct n as [|p|p]; simpl Z.to_int.
  - exists "0"%char, rest. repeat split; reflexivity.
  - pose proof (to_uint_head p) as Hh.
    unfold NilZero.string_of_int, NilZero.string_of_uint.
    destruct (Pos.to_uint p) as [|u|u|u|u|u|u|u|u|u|u]; try contradiction.
    all: simpl NilEmpty.string_of_uint; rewrite append_cons.
    all: eexists _, _; repeat split; reflexivity.
  - unfold NilZero.string_of_int. rewrite append_cons.
    eexists _, _; repeat split; reflexivity.
Qed.

Lemma scan_once_int (fuel : nat) (n : Z) (rest : string) :
  delimited rest = true ->
  scan_once (S fuel) (dumps_int n +:+ rest) = Some (JInt n, rest).
Proof.
  intros Hd. pose proof (scan_number_dumps n rest Hd) as Hs.
  destruct (dumps_int_head n rest) as (c & r & E & Hc & _).
  rewrite E in *. rewrite scan_once_number, Hs by exact Hc. reflexivity.
Qed.

(** *** Containers *)

Lemma skip_ws_head (c : ascii) (r : string) :
  opens_value c = true -> skip_ws (String c r) = String c r.
Proof.
  unfold opens_value. rewrite andb_true_iff, negb_true_iff. intros [H _].
  simpl. rewrite H. reflexivity.
Qed.

Lemma dumps_head (v : json) (rest : string) :
  exists c r, dumps v +:+ rest = String c r /\ opens_value c = true.
Proof.
  destruct v as [|[]|n|s|l|d]; simpl dumps; rewrite ?append_cons.
  1-3, 5-7: eexists _, _; split; reflexivity.
  destruct (dumps_int_head n rest) as (c & r & E & _ & Hc). eauto.
Qed.

Lemma skip_ws_dumps (v : json) (rest : string) :
  skip_ws (dumps v +:+ rest) = dumps v +:+ rest.
Proof.
  destruct (dumps_head v rest) as (c & r & -> & Hc). apply skip_ws_head, Hc.
Qed.

Lemma scan_once_arr (fuel : nat) (c : ascii) (r : string) :
  opens_value c = true ->
  scan_once (S fuel) (String "[" (String c r))
  = (fun p => (JArr (fst p), snd p)) <$> scan_items fuel (String c r).
Proof.
  destruct c as [[] [] [] [] [] [] [] []]; intros H; try discriminate H; reflexivity.
Qed.

Lemma dict_set_fresh (k : string) (v : json) (acc : list (string * json)) :
  existsb (String.eqb k) (map fst acc) = false ->
  Py.dict_set k v acc = (acc ++ [(k, v)])%list.
Proof.
  induction acc as [|[k' v'] acc IH]; simpl; [reflexivity|].
  rewrite orb_false_iff. intros [-> H]. rewrite IH by exact H. reflexivity.
Qed.

Lemma dict_of_pairs_distinct (d acc : list (string * json)) :
  distinct (map fst (acc ++ d)) = true ->
  fold_left (fun m kv => Py.dict_set (fst kv) (snd kv) m) d acc = (acc ++ d)%list.
Proof.
  revert acc. induction d as [|[k v] d IH]; intros acc H; simpl.
  - rewrite app_nil_r. reflexivity.
  - assert (Hk : existsb (String.eqb k) (map fst acc) = false).
    { clear IH. induction acc as [|[k' v'] acc IHacc]; simpl in *; [reflexivity|].
      rewrite andb_true_iff, negb_true_iff in H. destruct H as [H1 H2].
      rewrite (IHacc H2), orb_false_r.
      rewrite map_app, existsb_app in H1. simpl in H1.
      rewrite String.eqb_sym.
      destruct (String.eqb k' k); [|reflexivity].
      rewrite orb_true_r in H1. discriminate. }
    rewrite dict_set_fresh by exact Hk. rewrite IH.
    + rewrite <- app_assoc. reflexivity.
    + rewrite <- app_assoc. exact H.
Qed.

Lemma dict_of_pairs_id (d : list (string * json)) :
  distinct (map fst d) = true -> Py.dict_of_pairs d = d.
Proof. intros H. unfold Py.dict_of_pairs. apply (dict_of_pairs_distinct d []), H. Qed.

Lemma dumps_length_pos (v : json) : (1 <= String.length (dumps v))%nat.
Proof.
  destruct (dumps_head v "") as (c & r & E & _).
  assert (H : dumps v +:+ "" = dumps v).
  { generalize (dumps v). intros s. induction s as [|x s IH]; [reflexivity|].
    rewrite append_cons, IH. reflexivity. }
  rewrite H in E. rewrite E. simpl. lia.
Qed.

Lemma scan_items_last (fuel : nat) (s rest : string) (x : json) :
  scan_once fuel s = Some (x, String "]" rest) ->
  scan_items (S fuel) s = Some ([x], rest).
Proof. intros H. simpl. rewrite H. reflexivity. Qed.

Lemma scan_items_more (fuel : nat) (s r : string) (x : json) :
  scan_once fuel s = Some (x, String "," (String " " r)) ->
  scan_items (S fuel) s
  = (fun p => (x :: fst p, snd p)) <$> scan_items fuel (skip_ws r).
Proof. intros H. simpl. rewrite H. reflexivity. Qed.

Lemma scan_items_dumps (l : list json) :
  Forall roundtrips l -> l <> [] ->
  forall fuel rest,
    forallb wf l = true ->
    (String.length (Str.join ", " (map dumps l)) < fuel)%nat ->
    scan_items fuel (Str.join ", " (map dumps l) +:+ String "]" rest) = Some (l, rest).
Proof.
  induction 1 as [|x l Hx Hl IH]; [congruence|]. intros _ fuel rest Hwf Hfuel.
  simpl in Hwf. rewrite andb_true_iff in Hwf. destruct Hwf as [Hwx Hwl].
  destruct fuel as [|fuel]; [lia|].
  destruct l as [|y l].
  - simpl Str.join in *. apply scan_items_last, Hx; auto; lia.
  - change (Str.join ", " (map dumps (x :: y :: l)))
      with (dumps x +:+ ", " +:+ Str.join ", " (map dumps (y :: l))) in *.
    assert (Hnext : exists c r,
      Str.join ", " (map dumps (y :: l)) +:+ String "]" rest = String c r
      /\ opens_value c = true).
    { destruct l as [|z l].
      - simpl Str.join. apply dumps_head.
      - change (Str.join ", " (map dumps (y :: z :: l)))
          with (dumps y +:+ ", " +:+ Str.join ", " (map dumps (z :: l))).
        rewrite append_assoc. apply dumps_head. }
    specialize (IH ltac:(congruence)).
    remember (Str.join ", " (map dumps (y :: l))) as J eqn:EJ. clear EJ.
    rewrite !length_append in Hfuel. simpl String.length in Hfuel.
    rewrite !append_assoc. rewrite !append_cons, append_nil.
    rewrite (scan_items_more fuel _ (J +:+ String "]" rest) x) by (apply Hx; auto; lia).
    destruct Hnext as (c & r & E & Hc).
    rewrite E, (skip_ws_head c r Hc), <- E.
    rewrite IH by (auto; lia). reflexivity.
Qed.

Lemma member_text (kv : string * json) (rest : string) :
  exists t, member kv +:+ rest = String dquote t /\
            scanstring t
            = Some (fst kv, String ":" (String " " (dumps (snd kv) +:+ rest))).
Proof.
  unfold member. rewrite !append_assoc.
  destruct (scanstring_quote (fst kv) (": " +:+ dumps (snd kv) +:+ rest))
    as (t & E & Ht).
  exists t. split; [exact E|]. rewrite Ht. reflexivity.
Qed.

Lemma members_head (d : list (string * json)) (rest : string) :
  d <> [] ->
  exists t, Str.join ", " (map member d) +:+ rest = String dquote t.
Proof.
  destruct d as [|kv [|kv' d]]; [congruence | |]; intros _.
  - simpl Str.join. destruct (member_text kv rest) as (t & E & _). eauto.
  - change (Str.join ", " (map member (kv :: kv' :: d)))
      with (member kv +:+ ", " +:+ Str.join ", " (map member (kv' :: d))).
    rewrite append_assoc.
    destruct (member_text kv ((", " +:+ Str.join ", " (map member (kv' :: d))) +:+ rest))
      as (t & E & _). eauto.
Qed.

Lemma scan_members_last (fuel : nat) (t r rest key : string) (v : json) :
  scanstring t = Some (key, String ":" (String " " r)) ->
  scan_once fuel (skip_ws r) = Some (v, String "}" rest) ->
  scan_members (S fuel) (String dquote t) = Some ([(key, v)], rest).
Proof. intros H1 H2. simpl. rewrite H1. simpl. rewrite H2. reflexivity. Qed.

Lemma scan_members_more (fuel : nat) (t r r' key : string) (v : json) :
  scanstring t = Some (key, String ":" (String " " r)) ->
  scan_once fuel (skip_ws r) = Some (v, String "," (String " " r')) ->
  scan_members (S fuel) (String dquote t)
  = (fun p => ((key, v) :: fst p, snd p)) <$> scan_members fuel (skip_ws r').
Proof. intros H1 H2. simpl. rewrite H1. simpl. rewrite H2. reflexivity. Qed.

Lemma member_length (kv : string * json) :
  (String.length (dumps (snd kv)) <= String.length (member kv))%nat.
Proof. unfold member. rewrite !length_append. lia. Qed.

Lemma scan_members_dumps (d : list (string * json)) :
  Forall (fun kv => roundtrips (snd kv)) d -> d <> [] ->
  forall fuel rest,
    forallb (fun kv => wf (snd kv)) d = true ->
    (String.length (Str.join ", " (map member d)) < fuel)%nat ->
    scan_members fuel (Str.join ", " (map member d) +:+ String "}" rest)
    = Some (d, rest).
Proof.
  induction 1 as [|kv d Hx Hl IH]; [congruence|]. intros _ fuel rest Hwf Hfuel.
  simpl in Hwf. rewrite andb_true_iff in Hwf. destruct Hwf as [Hwx Hwl].
  destruct fuel as [|fuel]; [lia|].
  pose proof (member_length kv) as Hlen.
  destruct d as [|kv' d].
  - change (Str.join ", " (map member [kv])) with (member kv) in *.
    destruct (member_text kv (String "}" rest)) as (t & -> & Ht).
    replace [kv] with [(fst kv, snd kv)] by (destruct kv; reflexivity).
    eapply scan_members_last; [exact Ht|].
    rewrite skip_ws_dumps. apply Hx; auto. lia.
  - change (Str.join ", " (map member (kv :: kv' :: d)))
      with (member kv +:+ ", " +:+ Str.join ", " (map member (kv' :: d))) in *.
    specialize (IH ltac:(congruence)).
    destruct (members_head (kv' :: d) (String "}" rest) ltac:(congruence)) as (t' & E').
    remember (Str.join ", " (map member (kv' :: d))) as J eqn:EJ. clear EJ.
    rewrite !length_append in Hfuel.
    change (String.length ", ") with 2%nat in Hfuel.
    rewrite !append_assoc.
    destruct (member_text kv (", " +:+ J +:+ String "}" rest)) as (t & -> & Ht).
    rewrite !append_cons, append_nil in Ht.
    erewrite scan_members_more; [| exact Ht |].
    2:{ rewrite skip_ws_dumps. apply Hx; auto. lia. }
    rewrite E'. change (skip_ws (String dquote t')) with (String dquote t').
    rewrite <- E'. rewrite IH by (auto; lia). destruct kv; reflexivity.
Qed.

Lemma dumps_obj (d : list (string * json)) :
  dumps (JObj d) = "{" +:+ Str.join ", " (map member d) +:+ "}".
Proof. reflexivity. Qed.

Lemma dumps_arr (l : list json) :
  dumps (JArr l) = "[" +:+ Str.join ", " (map dumps l) +:+ "]".
Proof. reflexivity. Qed.

Lemma scan_once_dumps (v : json) : roundtrips v.
Proof.
  induction v as [| b | n | s | l IH | d IH] using json_ind';
    intros fuel rest Hd Hwf Hfuel.
  - destruct fuel; [simpl in Hfuel; lia | reflexivity].
  - destruct fuel; [destruct b; simpl in Hfuel; lia | destruct b; reflexivity].
  - destruct fuel; [pose proof (dumps_length_pos (JInt n)); lia|].
    apply scan_once_int, Hd.
  - destruct fuel; [pose proof (dumps_length_pos (JStr s)); lia|].
    simpl dumps. destruct (scanstring_quote s rest) as (t & -> & Ht).
    unfold dquote. simpl. rewrite Ht. reflexivity.
  - rewrite dumps_arr in *. rewrite !length_append in Hfuel. simpl in Hfuel.
    destruct fuel; [lia|].
    rewrite !append_assoc, !append_cons, !append_nil.
    destruct l as [|x l]; [reflexivity|].
    assert (Hh : exists c r,
      Str.join ", " (map dumps (x :: l)) +:+ String "]" rest = String c r
      /\ opens_value c = true).
    { destruct l as [|y l].
      - simpl Str.join. apply dumps_head.
      - change (Str.join ", " (map dumps (x :: y :: l)))
          with (dumps x +:+ ", " +:+ Str.join ", " (map dumps (y :: l))).
        rewrite append_assoc. apply dumps_head. }
    destruct Hh as (c & r & E & Hc).
    rewrite E, scan_once_arr, <- E by exact Hc.
    rewrite scan_items_dumps;
      [reflexivity | exact IH | congruence | exact Hwf | lia].
  - rewrite dumps_obj in *. rewrite !length_append in Hfuel. simpl in Hfuel.
    destruct fuel; [lia|].
    rewrite !append_assoc, !append_cons, !append_nil.
    destruct d as [|kv d]; [reflexivity|].
    simpl wf in Hwf. rewrite andb_true_iff in Hwf. destruct Hwf as [Hk Hwf].
    destruct (members_head (kv :: d) (String "}" rest) ltac:(congruence)) as (t & E).
    rewrite E.
    change (scan_once (S fuel) (String "{" (String dquote t)))
      with ((fun p => (JObj (Py.dict_of_pairs (fst p)), snd p))
              <$> scan_members fuel (String dquote t)).
    rewrite <- E. rewrite scan_members_dumps;
      [| exact IH | congruence | exact Hwf | lia].
    simpl. rewrite dict_of_pairs_id by exact Hk. reflexivity.
Qed.

(** [json.loads(json.dumps(v)) == v] *)
Lemma loads_dumps (v : json) : wf v = true -> loads (dumps v) = Ok v.
Proof.
  intros Hwf. unfold loads.
  assert (E : dumps v = dumps v +:+ "").
  { generalize (dumps v). intros s. induction s as [|x s IH]; [reflexivity|].
    rewrite append_cons, <- IH. reflexivity. }
  rewrite E at 2. rewrite skip_ws_dumps.
  rewrite scan_once_dumps; [reflexivity | reflexivity | exact Hwf | lia].
Qed.

Lemma dumps_nonempty (v : json) : dumps v <> "".
Proof. pose proof (dumps_length_pos v). destruct (dumps v); simpl in *; [lia|congruence]. Qed.

End JsonFacts.

(** ** What a coroutine leaves alone *)

Create HintDb frame.

Lemma keeps_ret {A} (a : A) : keeps_table (ret a).
Proof. intros w. auto. Qed.

Lemma keeps_raise {A} (e : Exn) : keeps_table (@raise A e).
Proof. intros w. auto. Qed.

Lemma keeps_lift {A} (r : result A) : keeps_table (lift r).
Proof. intros w. auto. Qed.

Lemma keeps_bind {A B} (m : M A) (k : A -> M B) :
  keeps_table m -> (forall a, keeps_table (k a)) -> keeps_table (bind m k).
Proof.
  intros Hm Hk w. unfold bind. specialize (Hm w).
  destruct (m w) as [[a|e] w1]; simpl in *; [|exact Hm].
  destruct Hm as (H1 & H2 & H3). destruct (Hk a w1) as (H4 & H5 & H6).
  repeat split; congruence.
Qed.

Lemma keeps_redis_get (key : string) : keeps_table (redis_get key).
Proof.
  intros w. unfold redis_get.
  destruct (redis_client w) as [srv|]; [destruct (Redis.reachable srv)|]; auto.
Qed.

Lemma keeps_redis_set (key val : string) (ex : Z) : keeps_table (redis_set key val ex).
Proof.
  intros w. unfold redis_set.
  destruct (redis_client w) as [srv|]; [destruct (Redis.reachable srv)|]; auto.
Qed.

Lemma keeps_httpx_get (url : string) : keeps_table (httpx_get url).
Proof. intros w. unfold httpx_get. destruct (Httpx.outcome _); auto. Qed.

#[local] Hint Resolve keeps_ret keeps_raise keeps_lift keeps_bind
  keeps_redis_get keeps_redis_set keeps_httpx_get : frame.

Lemma keeps_if {A} (b : bool) (m1 m2 : M A) :
  keeps_table m1 -> keeps_table m2 -> keeps_table (if b then m1 else m2).
Proof. destruct b; auto. Qed.

#[local] Hint Resolve keeps_if : frame.

Lemma keeps_fetch (symbol : string) : keeps_table (fetch_coin_metadata symbol).
Proof.
  intros w. unfold fetch_coin_metadata.
  destruct (redis_client w) as [srv|]; [|apply keeps_raise].
  revert w. apply keeps_bind; [auto with frame|]. intros [[|c r]|].
  2: apply keeps_lift.
  all: apply keeps_bind; [auto with frame|]; intros response.
  all: apply keeps_if; [apply keeps_raise|].
  all: apply keeps_bind; [auto with frame|]; intros data.
  all: apply keeps_bind; [auto with frame|]; intros coins.
  all: apply keeps_bind; [auto with frame|]; intros coin_info.
  all: apply keeps_bind; auto with frame.
Qed.

(** ** The cache over time *)

Lemma read_later (now d : Z) (srv : Redis.server) (key : string) :
  0 <= d ->
  Str.truthy (Redis.read now srv key) = false ->
  Str.truthy (Redis.read (now + d) srv key) = false.
Proof.
  intros Hd. unfold Redis.read, Redis.live.
  destruct (Redis.keys srv !! key) as [[v [t|]]|]; simpl; auto.
  destruct (now + d <=? t) eqn:E1; [|reflexivity].
  apply Z.leb_le in E1. destruct (now <=? t) eqn:E2; [auto|].
  apply Z.leb_gt in E2. lia.
Qed.

Lemma read_write (t now : Z) (srv : Redis.server) (key val : string) (ex : Z) :
  now <= t + ex ->
  Redis.read now (Redis.write t key val ex srv) key = Some val.
Proof.
  intros H. unfold Redis.read, Redis.write. simpl.
  rewrite lookup_insert_eq. unfold Redis.live. simpl.
  destruct (now <=? t + ex) eqn:E; [reflexivity|]. apply Z.leb_gt in E. lia.
Qed.

Lemma cache_miss_after_search (w : World) (symbol : string) :
  cache_miss w symbol -> cache_miss (after_search symbol w) symbol.
Proof.
  intros (srv & H & Hr & Hread). exists srv. repeat split; auto.
  unfold after_search. simpl. apply read_later; [lia | exact Hread].
Qed.

Lemma http_calls_log (e : Event) (w : World) :
  http_calls (trace (log e w))
  = (http_calls (trace w) + if is_http e then 1 else 0)%nat.
Proof.
  unfold http_calls, log. simpl. rewrite List.filter_app, length_app. simpl.
  destruct (is_http e); reflexivity.
Qed.

Lemma trace_after_search (symbol : string) (w : World) :
  trace (after_search symbol w)
  = (trace w ++ [RedisGet (cache_key symbol); HttpGet (search_url symbol)])%list.
Proof. unfold after_search. simpl. rewrite <- app_assoc. reflexivity. Qed.

Lemma trace_after_store (symbol : string) (coin : json) (w : World) :
  cache_miss w symbol ->
  trace (after_store symbol coin w)
  = (trace w ++ [RedisGet (cache_key symbol); HttpGet (search_url symbol);
                 RedisSet (cache_key symbol) (Json.dumps coin) 3600])%list.
Proof.
  intros (srv & H & _). unfold after_store.
  replace (redis_client (after_search symbol w)) with (Some srv) by (symmetry; exact H).
  simpl. rewrite <- !app_assoc. reflexivity.
Qed.

Lemma http_calls_app (t u : list Event) :
  http_calls (t ++ u) = (http_calls t + http_calls u)%nat.
Proof. unfold http_calls. rewrite List.filter_app, length_app. reflexivity. Qed.

Lemma redis_writes_app (t u : list Event) :
  redis_writes (t ++ u) = (redis_writes t + redis_writes u)%nat.
Proof. unfold redis_writes. rewrite List.filter_app, length_app. reflexivity. Qed.

(** Whatever the source answers, a miss costs exactly one call to it. *)
Lemma miss_calls_source (symbol : string) (w : World) :
  cache_miss w symbol ->
  http_calls (trace (snd (fetch_coin_metadata symbol w))) = S (http_calls (trace w)).
Proof.
  intros Hm. rewrite (fetch_miss _ _ Hm).
  assert (Hs : http_calls (trace (after_search symbol w)) = S (http_calls (trace w))).
  { rewrite trace_after_search, http_calls_app. unfold http_calls. simpl. lia. }
  destruct (Httpx.outcome _) as [response|]; [|exact Hs].
  destruct (negb _); [exact Hs|].
  destruct (pick symbol response) as [c|e]; [|exact Hs].
  destruct (Py.truthy c); [|exact Hs]. simpl snd.
  rewrite (trace_after_store _ _ _ Hm), http_calls_app. unfold http_calls in *. simpl. lia.
Qed.

(** ** The resolver's contract *)

Lemma wf_lookup (d : list (string * json)) (k : string) (v : json) :
  forallb (fun kv => Json.wf (snd kv)) d = true ->
  Py.dict_lookup k d = Some v -> Json.wf v = true.
Proof.
  induction d as [|[k' v'] d IH]; simpl; [discriminate|].
  rewrite andb_true_iff. intros [H1 H2].
  destruct (String.eqb k k'); [intros [= <-]; exact H1 | apply IH, H2].
Qed.

Lemma wf_selected (symbol : string) (coins : list json) (c : json) :
  forallb Json.wf coins = true -> spec_select symbol coins = Some c -> Json.wf c = true.
Proof.
  intros Hwf H. apply find_some in H as [Hin _].
  rewrite forallb_forall in Hwf. apply Hwf, Hin.
Qed.

(** A miss answered with well-formed candidates resolves to what the
    specification's selection picks. *)
Lemma pick_source (w : World) (symbol : string) (dt : N) (coins : list json) :
  source_returns w symbol dt coins ->
  exists response,
    Httpx.outcome (next_exchange w symbol) = Some response /\
    Httpx.status_code response = 200 /\
    Httpx.elapsed (next_exchange w symbol) = dt /\
    forallb Json.wf coins = true /\
    pick symbol response
    = Ok (match spec_select symbol coins with Some c => c | None => JNull end).
Proof.
  intros (data & E & Hcoins & Hwf & Hexp). rewrite E. simpl.
  eexists. repeat split.
  - simpl in Hwf. fold Json.wf in Hwf. rewrite andb_true_iff in Hwf. destruct Hwf as [_ Hwf].
    apply (wf_lookup _ _ _ Hwf Hcoins).
  - unfold pick. simpl. rewrite Hcoins. simpl. apply next_match_spec, Hexp.
Qed.

Lemma fetch_found (w : World) (symbol : string) (dt : N) (coins : list json) (coin : json) :
  cache_miss w symbol -> source_returns w symbol dt coins ->
  spec_select symbol coins = Some coin ->
  fetch_coin_metadata symbol w = (Ok coin, after_store symbol coin w).
Proof.
  intros Hmiss Hsrc Hsel.
  destruct (pick_source _ _ _ _ Hsrc) as (response & Ho & Hs & _ & _ & Hp).
  rewrite fetch_miss by exact Hmiss. rewrite Ho, Hs, Hp, Hsel. simpl.
  rewrite (spec_select_truthy _ _ _ Hsel). reflexivity.
Qed.

Lemma fetch_not_found (w : World) (symbol : string) (dt : N) (coins : list json) :
  cache_miss w symbol -> source_returns w symbol dt coins ->
  spec_select symbol coins = None ->
  fetch_coin_metadata symbol w = (Ok JNull, after_search symbol w).
Proof.
  intros Hmiss Hsrc Hsel.
  destruct (pick_source _ _ _ _ Hsrc) as (response & Ho & Hs & _ & _ & Hp).
  rewrite fetch_miss by exact Hmiss. rewrite Ho, Hs, Hp, Hsel. reflexivity.
Qed.

(** A cache that answers either serves the key or has nothing for it. *)
Lemma hit_or_miss (w : World) (srv : Redis.server) (symbol : string) :
  redis_client w = Some srv -> Redis.reachable srv = true ->
  (exists cached, cache_hit w symbol cached) \/ cache_miss w symbol.
Proof.
  intros H Hr.
  destruct (Redis.read (now w) srv (cache_key symbol)) as [[|c r]|] eqn:E.
  - right. exists srv. rewrite E. auto.
  - left. exists (String c r), srv. repeat split; auto; congruence.
  - right. exists srv. rewrite E. auto.
Qed.

(** A miss that returns a record has stored it. *)
Lemma fetch_miss_result (w w1 : World) (symbol : string) (coin : json) :
  cache_miss w symbol ->
  fetch_coin_metadata symbol w = (Ok coin, w1) ->
  Py.truthy coin = true ->
  w1 = after_store symbol coin w.
Proof.
  intros Hmiss Hf Ht. rewrite fetch_miss in Hf by exact Hmiss.
  destruct (Httpx.outcome _) as [response|]; [|discriminate].
  destruct (negb _); [discriminate|].
  destruct (pick symbol response) as [c|e]; [|discriminate].
  injection Hf as -> <-. rewrite Ht. reflexivity.
Qed.

Lemma after_store_served (w : World) (symbol : string) (coin : json) (d : Z) :
  cache_miss w symbol -> 0 <= d <= 3600 ->
  cache_hit (advance d (after_store symbol coin w)) symbol (Json.dumps coin).
Proof.
  intros (srv & H & Hr & _) Hd. unfold after_store, after_search. simpl. rewrite H.
  eexists. repeat split; simpl.
  - exact Hr.
  - apply read_write. lia.
  - apply JsonFacts.dumps_nonempty.
Qed.

Lemma after_store_hit (w : World) (symbol : string) (coin : json) (d : Z) :
  cache_miss w symbol -> 0 <= d < 3600 ->
  cache_hit (advance d (after_store symbol coin w)) symbol (Json.dumps coin).
Proof. intros Hmiss Hd. apply after_store_served; [exact Hmiss | lia]. Qed.

(** A stored empty string does not pass [if cached:]: the resolver goes
    to the source as on a miss. *)
Example empty_value_is_a_miss :
  cache_miss (world_with (Some (redis_holding "coingecko:btc" "")) []
                         (answers (ok_with [btc]))) "btc".
Proof.
  eexists. split; [reflexivity|]. split; [reflexivity|]. vm_compute. reflexivity.
Qed.

(** Creating [eth] when the source lists [ETH]: the row is stored with
    the upper-cased symbol and the candidate's name. *)
Example create_eth :
  fst (create_crypto {| CryptoCreate.symbol := "eth" |}
         (world_with (Some empty_redis) [btc_row] (answers (ok_with [btc; eth]))))
  = Ok {| Crypto.id := 2; Crypto.symbol := "ETH"; Crypto.name := Some "Ethereum";
          Crypto.metadata := eth |}.
Proof. vm_compute. reflexivity. Qed.

(** C1: A lookup served by the cache returns the deserialized stored
    value at once and calls the external source not at all; and after a
    resolve that missed the cache and found a record (a JSON value, no
    object repeating a key), a second resolve of the same symbol less than
    3600 seconds later is served by the cache: it returns that record and
    makes no external-source call. *)
Theorem C1_hit_returns_cached_without_source_call :
  (forall (w : World) (symbol cached : string),
      cache_hit w symbol cached ->
      fetch_coin_metadata symbol w
      = (Json.loads cached, log (RedisGet (cache_key symbol)) w)
      /\ http_calls (trace (snd (fetch_coin_metadata symbol w))) = http_calls (trace w))
  /\
  (forall (w w1 : World) (symbol : string) (coin : json) (d : Z),
      cache_miss w symbol ->
      fetch_coin_metadata symbol w = (Ok coin, w1) ->
      Py.truthy coin = true -> Json.wf coin = true ->
      0 <= d < 3600 ->
      fetch_coin_metadata symbol (advance d w1)
      = (Ok coin, log (RedisGet (cache_key symbol)) (advance d w1))
      /\ http_calls (trace (snd (fetch_coin_metadata symbol (advance d w1))))
         = http_calls (trace w1)).
Proof.
  split.
  - intros w symbol cached Hhit. rewrite (fetch_hit _ _ _ Hhit). split; [reflexivity|].
    simpl snd. rewrite http_calls_log. simpl. lia.
  - intros w w1 symbol coin d Hmiss Hf Ht Hwf Hd.
    rewrite (fetch_miss_result _ _ _ _ Hmiss Hf Ht).
    pose proof (after_store_hit w symbol coin d Hmiss Hd) as Hhit.
    rewrite (fetch_hit _ _ _ Hhit), (JsonFacts.loads_dumps _ Hwf).
    split; [reflexivity|]. simpl snd. rewrite http_calls_log. simpl. lia.
Qed.

(** C2: When the lookup misses the cache and the source answers with
    candidates that each expose a [symbol] field, the resolver returns the
    first one whose [symbol] equals the queried symbol up to letter case
    ([None] when there is none).  The match is exact: the returned
    candidate's symbol has the length of the query and the same letter at
    every position, and no earlier candidate matches. *)
Theorem C2_selects_first_exact_match
  (w : World) (symbol : string) (dt : N) (coins : list json) :
  cache_miss w symbol ->
  source_returns w symbol dt coins ->
  fst (fetch_coin_metadata symbol w)
  = Ok (match spec_select symbol coins with Some c => c | None => JNull end)
  /\ (forall c, spec_select symbol coins = Some c ->
        exists before after s,
          coins = (before ++ c :: after)%list /\
          symbol_field c = Some s /\
          Str.ci_equal s symbol = true /\
          String.length s = String.length symbol /\
          Forall (fun c' => symbol_matches symbol c' = false) before).
Proof.
  intros Hmiss Hsrc. split.
  - destruct (spec_select symbol coins) as [c|] eqn:Hsel.
    + rewrite (fetch_found _ _ _ _ _ Hmiss Hsrc Hsel). reflexivity.
    + rewrite (fetch_not_found _ _ _ _ Hmiss Hsrc Hsel). reflexivity.
  - intros c Hc.
    destruct (spec_select_sound _ _ _ Hc) as (before & after & s & E & Hs & Hm & Hb).
    exists before, after, s. repeat split; auto.
    apply StrFacts.ci_equal_length, Hm.
Qed.

(** C3: When the lookup misses the cache and a candidate of the source
    matches, the resolver returns that candidate, having written its full
    serialization under the symbol's key with an expiry 3600 seconds
    after the write: the stored text deserializes to the candidate. *)
Theorem C3_match_is_cached_for_3600_then_returned
  (w : World) (symbol : string) (dt : N) (coins : list json) (coin : json) :
  cache_miss w symbol ->
  source_returns w symbol dt coins ->
  spec_select symbol coins = Some coin ->
  let w' := snd (fetch_coin_metadata symbol w) in
  fst (fetch_coin_metadata symbol w) = Ok coin
  /\ trace w' = (trace w ++ [RedisGet (cache_key symbol); HttpGet (search_url symbol);
                            RedisSet (cache_key symbol) (Json.dumps coin) 3600])%list
  /\ cache_entry w' (cache_key symbol)
     = Some {| Redis.value := Json.dumps coin;
               Redis.expires_at := Some (now w' + 3600) |}
  /\ Json.loads (Json.dumps coin) = Ok coin
  /\ now w' = now w + Z.of_N dt.
Proof.
  intros Hmiss Hsrc Hsel w'. subst w'.
  rewrite (fetch_found _ _ _ _ _ Hmiss Hsrc Hsel). simpl fst. simpl snd.
  destruct (pick_source _ _ _ _ Hsrc) as (response & _ & _ & Hdt & Hwf & _).
  destruct Hmiss as (srv & H & Hr & _).
  unfold after_store, after_search, cache_entry. simpl. rewrite H. simpl.
  rewrite lookup_insert_eq, Hdt, <- !app_assoc. simpl.
  repeat split.
  apply JsonFacts.loads_dumps, (wf_selected _ _ _ Hwf Hsel).
Qed.

(** C4: The resolver forms its cache key from the lower-cased symbol
    behind a fixed prefix.  For two symbols that differ only in letter
    case, a resolve of the second reads the cache, and every cache access
    it makes is under the key made from the first; a lookup the cache
    serves for the first it serves for the second; and what a resolve of
    the first has stored answers the second for the next 3600 seconds,
    without a call to the source. *)
Theorem C4_cache_key_ignores_case
  (s1 s2 : string) (w : World) (srv : Redis.server) :
  Str.ci_equal s1 s2 = true ->
  redis_client w = Some srv ->
  (exists events,
      trace (snd (fetch_coin_metadata s2 w)) = (trace w ++ events)%list
      /\ cache_keys events <> []
      /\ Forall (fun key => key = "coingecko:" +:+ Str.lower s1) (cache_keys events))
  /\ (forall cached,
        cache_hit w s1 cached ->
        fetch_coin_metadata s2 w
        = (Json.loads cached, log (RedisGet ("coingecko:" +:+ Str.lower s1)) w))
  /\ (forall w1 coin d,
        cache_miss w s1 ->
        fetch_coin_metadata s1 w = (Ok coin, w1) ->
        Py.truthy coin = true -> Json.wf coin = true ->
        0 <= d < 3600 ->
        fetch_coin_metadata s2 (advance d w1)
        = (Ok coin, log (RedisGet ("coingecko:" +:+ Str.lower s1)) (advance d w1))
        /\ http_calls (trace (snd (fetch_coin_metadata s2 (advance d w1))))
           = http_calls (trace w1)).
Proof.
  intros Hci Hsrv. apply StrFacts.ci_equal_lower in Hci.
  assert (Hk : cache_key s2 = "coingecko:" +:+ Str.lower s1)
    by (unfold cache_key; rewrite Hci; reflexivity).
  assert (Hk1 : cache_key s1 = cache_key s2) by (rewrite Hk; reflexivity).
  assert (Hone : Forall (fun key => key = "coingecko:" +:+ Str.lower s1) [cache_key s2])
    by (constructor; [exact Hk | constructor]).
  assert (Htwo : Forall (fun key => key = "coingecko:" +:+ Str.lower s1)
                        [cache_key s2; cache_key s2])
    by (constructor; [exact Hk | exact Hone]).
  split; [|split].
  - destruct (Redis.reachable srv) eqn:Hr.
    2:{ rewrite (fetch_unreachable _ _ _ Hsrv Hr).
        exists [RedisGet (cache_key s2)]. split; [reflexivity|].
        split; [discriminate | exact Hone]. }
    destruct (hit_or_miss w srv s2 Hsrv Hr) as [(cached & Hhit) | Hmiss].
    { rewrite (fetch_hit _ _ _ Hhit).
      exists [RedisGet (cache_key s2)]. split; [reflexivity|].
      split; [discriminate | exact Hone]. }
    assert (Hsearch : exists events,
               trace (after_search s2 w) = (trace w ++ events)%list
               /\ cache_keys events <> []
               /\ Forall (fun key => key = "coingecko:" +:+ Str.lower s1)
                         (cache_keys events)).
    { eexists. split; [apply trace_after_search|].
      split; [discriminate | exact Hone]. }
    rewrite (fetch_miss _ _ Hmiss).
    destruct (Httpx.outcome _) as [response|]; [|exact Hsearch].
    destruct (negb _); [exact Hsearch|].
    destruct (pick s2 response) as [coin|e]; [|exact Hsearch].
    destruct (Py.truthy coin); [|exact Hsearch].
    eexists. split; [apply (trace_after_store _ _ _ Hmiss)|].
    split; [discriminate | exact Htwo].
  - intros cached Hhit.
    assert (Hhit2 : cache_hit w s2 cached)
      by (unfold cache_hit in *; rewrite <- Hk1; exact Hhit).
    rewrite (fetch_hit _ _ _ Hhit2), Hk. reflexivity.
  - intros w1 coin d Hmiss Hf Ht Hwf Hd.
    rewrite (fetch_miss_result _ _ _ _ Hmiss Hf Ht).
    pose proof (after_store_hit w s1 coin d Hmiss Hd) as Hhit.
    assert (Hhit2 : cache_hit (advance d (after_store s1 coin w)) s2 (Json.dumps coin))
      by (unfold cache_hit in *; rewrite <- Hk1; exact Hhit).
    rewrite (fetch_hit _ _ _ Hhit2), (JsonFacts.loads_dumps _ Hwf), Hk.
    split; [reflexivity|]. simpl snd. rewrite http_calls_log. simpl. lia.
Qed.

(** C5: When the lookup misses the cache and no candidate of the source
    matches, the resolver returns [None], the cache is left as it was, and
    a resolve of the same symbol right after goes to the source again. *)
Theorem C5_not_found_is_not_cached
  (w : World) (symbol : string) (dt : N) (coins : list json) :
  cache_miss w symbol ->
  source_returns w symbol dt coins ->
  spec_select symbol coins = None ->
  let w' := snd (fetch_coin_metadata symbol w) in
  fst (fetch_coin_metadata symbol w) = Ok JNull
  /\ redis_client w' = redis_client w
  /\ redis_writes (trace w') = redis_writes (trace w)
  /\ http_calls (trace w') = S (http_calls (trace w))
  /\ http_calls (trace (snd (fetch_coin_metadata symbol w'))) = S (http_calls (trace w')).
Proof.
  intros Hmiss Hsrc Hsel w'. subst w'.
  rewrite (fetch_not_found _ _ _ _ Hmiss Hsrc Hsel). simpl fst. simpl snd.
  repeat split.
  - rewrite trace_after_search, redis_writes_app. unfold redis_writes. simpl. lia.
  - rewrite trace_after_search, http_calls_app. unfold http_calls. simpl. lia.
  - apply miss_calls_source, cache_miss_after_search, Hmiss.
Qed.

(** C6 (as the code has it): When the lookup misses the cache and the
    call to the source does not succeed, the resolver raises and writes
    nothing to the cache: a response whose status is not 200 raises the
    502 [HTTPException]; a call that does not complete raises the
    transport's own error, which no handler maps to 502.  In neither case
    is the outcome the [None] of "not found". *)
Theorem C6_failed_source_call_raises_and_caches_nothing (w : World) (symbol : string) :
  cache_miss w symbol ->
  let x := next_exchange w symbol in
  let r := fst (fetch_coin_metadata symbol w) in
  let w' := snd (fetch_coin_metadata symbol w) in
  (Httpx.outcome x = None -> r = Raise TransportError)
  /\ (forall response,
        Httpx.outcome x = Some response -> Httpx.status_code response <> 200 ->
        r = Raise (HTTPException 502 upstream_detail)
        /\ UpstreamUnavailable (HTTPException 502 upstream_detail))
  /\ (Httpx.outcome x = None
      \/ (exists response, Httpx.outcome x = Some response
                           /\ Httpx.status_code response <> 200) ->
      ~ NotFound r
      /\ redis_client w' = redis_client w
      /\ redis_writes (trace w') = redis_writes (trace w)).
Proof.
  intros Hmiss x r w'. subst x r w'. rewrite (fetch_miss _ _ Hmiss).
  assert (Hw : redis_writes (trace (after_search symbol w)) = redis_writes (trace w)).
  { rewrite trace_after_search, redis_writes_app. unfold redis_writes. simpl. lia. }
  assert (Hnf : forall e, ~ NotFound (Raise e)).
  { intros e (v & Hv & _). discriminate. }
  split; [|split].
  - intros ->. reflexivity.
  - intros response -> Hs. apply Z.eqb_neq in Hs. rewrite Hs. simpl.
    split; [reflexivity | eexists; reflexivity].
  - intros [-> | (response & -> & Hs)].
    + simpl. repeat split; auto.
    + apply Z.eqb_neq in Hs. rewrite Hs. simpl. repeat split; auto.
Qed.

(** C7: Creating a symbol whose upper-cased form a row already holds
    raises the 409 [HTTPException] and changes nothing: no row, no cache
    access, no call to the source (the world is the one it started in). *)
Theorem C7_duplicate_symbol_conflicts_before_resolving
  (w : World) (crypto : CryptoCreate.t) (row : Crypto.t) :
  In row (cryptos w) ->
  Crypto.symbol row = Str.upper (CryptoCreate.symbol crypto) ->
  create_crypto crypto w = (Raise (HTTPException 409 duplicate_detail), w).
Proof.
  intros Hin Hsym. unfold create_crypto, bind, query_symbol_first, find_symbol.
  destruct (find _ (cryptos w)) as [r|] eqn:E; [reflexivity|].
  pose proof (find_none _ _ E row Hin) as H. simpl in H.
  rewrite Hsym, String.eqb_refl in H. discriminate.
Qed.

(** C8: For an entity the table holds, a refresh, or an update that
    names a symbol, whose resolve is not found raises the 404
    [HTTPException]; one whose resolve raises (the 502 of the source among
    others) raises the same exception; and in both cases the handler ends
    in the world the resolver left, whose table is the one it started
    with. *)
Theorem C8_failed_resolve_leaves_entity_unmodified
  (w : World) (crypto_id : Z) (crypto : Crypto.t) :
  find_id crypto_id (cryptos w) = Some crypto ->
  (forall r w1,
      fetch_coin_metadata (Crypto.symbol crypto) w = (r, w1) ->
      (NotFound r ->
       refresh_crypto crypto_id w
       = (Raise (HTTPException 404 unresolved_refresh_detail), w1))
      /\ (forall e, r = Raise e -> refresh_crypto crypto_id w = (Raise e, w1))
      /\ cryptos w1 = cryptos w /\ next_id w1 = next_id w)
  /\
  (forall c s r w1,
      fetch_coin_metadata (String c s) w = (r, w1) ->
      let crypto_data := {| CryptoUpdate.symbol := Some (String c s) |} in
      (NotFound r ->
       update_crypto crypto_id crypto_data w
       = (Raise (HTTPException 404 unresolved_detail), w1))
      /\ (forall e, r = Raise e -> update_crypto crypto_id crypto_data w = (Raise e, w1))
      /\ cryptos w1 = cryptos w /\ next_id w1 = next_id w).
Proof.
  intros Hfind. split.
  - intros r w1 Hf.
    destruct (keeps_fetch (Crypto.symbol crypto) w) as (Hc & Hn & _).
    rewrite Hf in Hc, Hn. simpl in Hc, Hn.
    repeat split; auto.
    + intros (v & -> & Hv). unfold refresh_crypto, bind, Crypto_get.
      rewrite Hfind, Hf, Hv. reflexivity.
    + intros e ->. unfold refresh_crypto, bind, Crypto_get.
      rewrite Hfind, Hf. reflexivity.
  - intros c s r w1 Hf crypto_data.
    destruct (keeps_fetch (String c s) w) as (Hc & Hn & _).
    rewrite Hf in Hc, Hn. simpl in Hc, Hn.
    repeat split; auto.
    + intros (v & -> & Hv). unfold update_crypto, bind, Crypto_get.
      rewrite Hfind. simpl. unfold bind. rewrite Hf, Hv. reflexivity.
    + intros e ->. unfold update_crypto, bind, Crypto_get.
      rewrite Hfind. simpl. unfold bind. rewrite Hf. reflexivity.
Qed.

(** C9: When the cache cannot be used (the client was never created, or
    its server is unreachable) the resolver raises a cache error and makes
    no call to the external source: the trace gains at most the attempted
    cache read. *)
Theorem C9_cache_unavailable_is_fatal (w : World) (symbol : string) :
  cache_unavailable w ->
  let w' := snd (fetch_coin_metadata symbol w) in
  (exists e, fst (fetch_coin_metadata symbol w) = Raise e /\ CacheUnavailable e)
  /\ http_calls (trace w') = http_calls (trace w)
  /\ (trace w' = trace w \/ trace w' = (trace w ++ [RedisGet (cache_key symbol)])%list).
Proof.
  intros [Hnone | (srv & Hsome & Hdown)] w'; subst w'.
  - rewrite (fetch_no_client _ _ Hnone). simpl.
    repeat split; [eexists; split; [reflexivity | left; reflexivity] | auto].
  - rewrite (fetch_unreachable _ _ _ Hsome Hdown). simpl.
    repeat split; [eexists; split; [reflexivity | right; reflexivity] | | auto].
    rewrite http_calls_app. unfold http_calls. simpl. lia.
Qed.

Lemma NoDup_map_eq {A B} (f : A -> B) (l : list A) (x y : A) :
  NoDup (map f l) -> In x l -> In y l -> f x = f y -> x = y.
Proof.
  induction l as [|a l IH]; simpl; [tauto|].
  intros Hnd Hx Hy E. apply NoDup_cons in Hnd as [Hna Hnd].
  rewrite list_elem_of_In in Hna.
  destruct Hx as [<- | Hx], Hy as [<- | Hy]; auto.
  - exfalso. apply Hna. rewrite E. apply in_map, Hy.
  - exfalso. apply Hna. rewrite <- E. apply in_map, Hx.
Qed.

Lemma find_id_in (i : Z) (rows : list Crypto.t) (r : Crypto.t) :
  find_id i rows = Some r -> In r rows /\ Crypto.id r = i.
Proof.
  intros H. apply find_some in H as [Hin E]. split; [exact Hin|].
  apply Z.eqb_eq, E.
Qed.

Lemma replace_row_same (rows : list Crypto.t) (r : Crypto.t) :
  NoDup (map Crypto.id rows) -> In r rows -> replace_row r rows = rows.
Proof.
  intros Hnd Hin. unfold replace_row.
  rewrite <- (map_id rows) at 2. apply map_ext_in. intros x Hx.
  destruct (Crypto.id x =? Crypto.id r) eqn:E; [|reflexivity].
  apply Z.eqb_eq in E. symmetry. apply (NoDup_map_eq Crypto.id rows x r); auto.
Qed.

Lemma symbol_not_taken (rows : list Crypto.t) (r : Crypto.t) :
  NoDup (map Crypto.symbol rows) -> In r rows -> symbol_taken r rows = false.
Proof.
  intros Hnd Hin. unfold symbol_taken.
  destruct (existsb _ rows) eqn:E; [|reflexivity].
  apply existsb_exists in E as (x & Hx & H).
  apply andb_true_iff in H as [Hs Hi]. apply String.eqb_eq in Hs.
  rewrite (NoDup_map_eq Crypto.symbol rows x r Hnd Hx Hin Hs), Z.eqb_refl in Hi.
  discriminate.
Qed.

(** C10: For an entity the table holds, an update whose body has no
    symbol, or an empty one, makes no resolver call, no cache access and
    no call to the source and changes no row, but it does not return the
    entity: the handler goes on to apply an update that sets no column,
    the database refuses the statement, and the request ends in that error
    in the world it started in. *)
Theorem C10_update_without_symbol_raises
  (w : World) (crypto_id : Z) (crypto : Crypto.t) (crypto_data : CryptoUpdate.t) :
  find_id crypto_id (cryptos w) = Some crypto ->
  Str.truthy (CryptoUpdate.symbol crypto_data) = false ->
  update_crypto crypto_id crypto_data w = (Raise PostgresSyntaxError, w).
Proof.
  intros Hfind Hsym.
  unfold update_crypto, bind, Crypto_get. rewrite Hfind.
  destruct crypto_data as [[[|c s]|]]; simpl in *; try discriminate; reflexivity.
Qed.

(** ** The theorems at concrete worlds *)

Lemma miss_on_empty_redis (rows : list Crypto.t) (up : nat -> string -> Httpx.exchange)
  (symbol : string) :
  cache_miss (world_with (Some empty_redis) rows up) symbol.
Proof. exists empty_redis. repeat split. Qed.

Lemma source_returns_sample (srv : option Redis.server) (rows : list Crypto.t)
  (symbol : string) (coins : list json) :
  Json.wf (search_body coins) = true ->
  forallb exposes_symbol coins = true ->
  source_returns (world_with srv rows (answers (ok_with coins))) symbol 2 coins.
Proof.
  intros Hwf Hexp. exists [("coins", JArr coins); ("exchanges", JArr [])].
  repeat split; auto.
Qed.

Lemma hit_on_w_cached : cache_hit w_cached "BTC" (Json.dumps btc).
Proof.
  exists (redis_holding "coingecko:btc" (Json.dumps btc)).
  split; [reflexivity|]. split; [reflexivity|].
  split; [vm_compute; reflexivity | apply JsonFacts.dumps_nonempty].
Qed.

Lemma C1_witness :
  cache_hit w_cached "BTC" (Json.dumps btc)
  /\ fetch_coin_metadata "BTC" w_cached
     = (Ok btc, log (RedisGet "coingecko:btc") w_cached)
  /\ cache_miss w_fresh "btc"
  /\ fetch_coin_metadata "btc" (advance 3599 (snd (fetch_coin_metadata "btc" w_fresh)))
     = (Ok btc, log (RedisGet "coingecko:btc")
                    (advance 3599 (snd (fetch_coin_metadata "btc" w_fresh)))).
Proof.
  pose proof hit_on_w_cached as Hhit.
  assert (Hmiss : cache_miss w_fresh "btc") by apply miss_on_empty_redis.
  split; [exact Hhit|]. split; [|split; [exact Hmiss|]].
  - destruct (proj1 C1_hit_returns_cached_without_source_call w_cached "BTC" _ Hhit)
      as [H _].
    rewrite H. vm_compute. reflexivity.
  - refine (proj1 (proj2 C1_hit_returns_cached_without_source_call
                     w_fresh _ "btc" btc 3599 Hmiss _ _ _ _)).
    + vm_compute. reflexivity.
    + reflexivity.
    + reflexivity.
    + lia.
Defined.

Lemma C2_witness :
  cache_miss (w_offering [btc2; btc; ete]) "BTC"
  /\ source_returns (w_offering [btc2; btc; ete]) "BTC" 2 [btc2; btc; ete]
  /\ fst (fetch_coin_metadata "BTC" (w_offering [btc2; btc; ete])) = Ok btc
  /\ fst (fetch_coin_metadata "btc" (w_offering [btc2; btc; ete])) = Ok btc
  /\ fst (fetch_coin_metadata "BT" (w_offering [btc2; btc; ete])) = Ok JNull
  /\ fst (fetch_coin_metadata (String (ascii_of_nat 201) "TE")
                              (w_offering [btc2; btc; ete])) = Ok ete.
Proof.
  assert (Hmiss : forall symbol, cache_miss (w_offering [btc2; btc; ete]) symbol)
    by (intros symbol; apply miss_on_empty_redis).
  assert (Hsrc : forall symbol,
             source_returns (w_offering [btc2; btc; ete]) symbol 2 [btc2; btc; ete])
    by (intros symbol; apply source_returns_sample; reflexivity).
  split; [exact (Hmiss _)|]. split; [exact (Hsrc _)|]. split; [|split; [|split]].
  - rewrite (proj1 (C2_selects_first_exact_match _ "BTC" _ _ (Hmiss _) (Hsrc _))).
    reflexivity.
  - rewrite (proj1 (C2_selects_first_exact_match _ "btc" _ _ (Hmiss _) (Hsrc _))).
    reflexivity.
  - rewrite (proj1 (C2_selects_first_exact_match _ "BT" _ _ (Hmiss _) (Hsrc _))).
    reflexivity.
  - rewrite (proj1 (C2_selects_first_exact_match _ _ _ _ (Hmiss _) (Hsrc _))).
    reflexivity.
Defined.

Lemma C3_witness :
  cache_miss w_fresh "btc"
  /\ source_returns w_fresh "btc" 2 [btc2; btc]
  /\ spec_select "btc" [btc2; btc] = Some btc
  /\ fst (fetch_coin_metadata "btc" w_fresh) = Ok btc
  /\ cache_entry (snd (fetch_coin_metadata "btc" w_fresh)) (cache_key "btc")
     = Some {| Redis.value := Json.dumps btc; Redis.expires_at := Some (1002 + 3600) |}.
Proof.
  assert (Hmiss : cache_miss w_fresh "btc") by apply miss_on_empty_redis.
  assert (Hsrc : source_returns w_fresh "btc" 2 [btc2; btc])
    by (apply source_returns_sample; reflexivity).
  assert (Hsel : spec_select "btc" [btc2; btc] = Some btc) by reflexivity.
  destruct (C3_match_is_cached_for_3600_then_returned
              w_fresh "btc" 2 [btc2; btc] btc Hmiss Hsrc Hsel)
    as (Hret & _ & Hentry & _ & Hnow).
  split; [exact Hmiss|]. split; [exact Hsrc|]. split; [exact Hsel|].
  split; [exact Hret|]. rewrite Hentry, Hnow. reflexivity.
Defined.

Lemma C4_witness :
  Str.ci_equal "btc" "BTC" = true
  /\ Str.ci_equal "BTC" "btc" = true
  /\ cache_miss w_fresh "BTC"
  /\ fetch_coin_metadata "BTC" w_cached
     = (Ok btc, log (RedisGet "coingecko:btc") w_cached)
  /\ fetch_coin_metadata "btc" (advance 10 (snd (fetch_coin_metadata "BTC" w_fresh)))
     = (Ok btc, log (RedisGet "coingecko:btc")
                    (advance 10 (snd (fetch_coin_metadata "BTC" w_fresh)))).
Proof.
  assert (H1 : Str.ci_equal "btc" "BTC" = true) by reflexivity.
  assert (H2 : Str.ci_equal "BTC" "btc" = true) by reflexivity.
  assert (Hmiss : cache_miss w_fresh "BTC") by apply miss_on_empty_redis.
  assert (Hhit : cache_hit w_cached "btc" (Json.dumps btc)) by exact hit_on_w_cached.
  assert (Hf : fetch_coin_metadata "BTC" w_fresh
               = (Ok btc, snd (fetch_coin_metadata "BTC" w_fresh)))
    by (vm_compute; reflexivity).
  destruct (C4_cache_key_ignores_case "btc" "BTC" w_cached _ H1 eq_refl)
    as (_ & Hserved & _).
  destruct (C4_cache_key_ignores_case "BTC" "btc" w_fresh _ H2 eq_refl)
    as (_ & _ & Hshared).
  split; [exact H1|]. split; [exact H2|]. split; [exact Hmiss|]. split.
  - rewrite (Hserved _ Hhit). reflexivity.
  - exact (proj1 (Hshared _ btc 10 Hmiss Hf eq_refl eq_refl ltac:(lia))).
Defined.

Lemma C5_witness :
  cache_miss w_unlisted "btc"
  /\ source_returns w_unlisted "btc" 2 [btc2]
  /\ spec_select "btc" [btc2] = None
  /\ fst (fetch_coin_metadata "btc" w_unlisted) = Ok JNull
  /\ redis_client (snd (fetch_coin_metadata "btc" w_unlisted)) = Some empty_redis.
Proof.
  assert (Hmiss : cache_miss w_unlisted "btc") by apply miss_on_empty_redis.
  assert (Hsrc : source_returns w_unlisted "btc" 2 [btc2])
    by (apply source_returns_sample; reflexivity).
  assert (Hsel : spec_select "btc" [btc2] = None) by reflexivity.
  destruct (C5_not_found_is_not_cached w_unlisted "btc" 2 [btc2] Hmiss Hsrc Hsel)
    as (Hret & Hredis & _).
  split; [exact Hmiss|]. split; [exact Hsrc|]. split; [exact Hsel|].
  split; [exact Hret | exact Hredis].
Defined.

(** C6 as worded, at a call that times out: the resolver's
    failure is the transport's error and not a 502. *)
Lemma C6_timeout_is_not_mapped_to_502 :
  cache_miss w_timeout "btc"
  /\ Httpx.outcome (next_exchange w_timeout "btc") = None
  /\ fst (fetch_coin_metadata "btc" w_timeout) = Raise TransportError
  /\ (UpstreamUnavailable TransportError -> False).
Proof.
  split; [apply miss_on_empty_redis|]. split; [reflexivity|]. split; [reflexivity|].
  intros (detail & H). discriminate H.
Qed.

Lemma C6_witness :
  cache_miss w_timeout "btc"
  /\ fst (fetch_coin_metadata "btc" w_timeout) = Raise TransportError
  /\ redis_client (snd (fetch_coin_metadata "btc" w_timeout)) = redis_client w_timeout.
Proof.
  assert (Hmiss : cache_miss w_timeout "btc") by apply miss_on_empty_redis.
  destruct (C6_failed_source_call_raises_and_caches_nothing w_timeout "btc" Hmiss)
    as (Hfail & _ & Hrest).
  destruct (Hrest (or_introl eq_refl)) as (_ & Hredis & _).
  split; [exact Hmiss|]. split; [exact (Hfail eq_refl) | exact Hredis].
Defined.

Lemma C7_witness :
  In btc_row (cryptos w_tracking_btc)
  /\ Crypto.symbol btc_row = Str.upper "btc"
  /\ create_crypto {| CryptoCreate.symbol := "btc" |} w_tracking_btc
     = (Raise (HTTPException 409 duplicate_detail), w_tracking_btc).
Proof.
  assert (Hin : In btc_row (cryptos w_tracking_btc)) by (left; reflexivity).
  assert (Hsym : Crypto.symbol btc_row = Str.upper "btc") by reflexivity.
  split; [exact Hin|]. split; [exact Hsym|].
  exact (C7_duplicate_symbol_conflicts_before_resolving
           w_tracking_btc {| CryptoCreate.symbol := "btc" |} btc_row Hin Hsym).
Defined.

Lemma C8_witness :
  find_id 1 (cryptos w_unlisted) = Some btc_row
  /\ refresh_crypto 1 w_unlisted
     = (Raise (HTTPException 404 unresolved_refresh_detail),
        snd (fetch_coin_metadata "BTC" w_unlisted))
  /\ cryptos (snd (refresh_crypto 1 w_unlisted)) = [btc_row]
  /\ update_crypto 1 {| CryptoUpdate.symbol := Some "eth" |} w_timeout
     = (Raise TransportError, snd (fetch_coin_metadata "eth" w_timeout)).
Proof.
  assert (Hfind : find_id 1 (cryptos w_unlisted) = Some btc_row) by reflexivity.
  assert (Hfind' : find_id 1 (cryptos w_timeout) = Some btc_row) by reflexivity.
  destruct (C8_failed_resolve_leaves_entity_unmodified w_unlisted 1 btc_row Hfind)
    as [Hrefresh _].
  destruct (C8_failed_resolve_leaves_entity_unmodified w_timeout 1 btc_row Hfind')
    as [_ Hupdate].
  destruct (Hrefresh (Ok JNull) (snd (fetch_coin_metadata "BTC" w_unlisted)))
    as (Hnf & _ & Hrows & _); [vm_compute; reflexivity|].
  destruct (Hupdate "e"%char "th" (Raise TransportError)
                    (snd (fetch_coin_metadata "eth" w_timeout)))
    as (_ & Hexn & _); [vm_compute; reflexivity|].
  assert (Hr : refresh_crypto 1 w_unlisted
               = (Raise (HTTPException 404 unresolved_refresh_detail),
                  snd (fetch_coin_metadata "BTC" w_unlisted))).
  { apply Hnf. exists JNull. split; reflexivity. }
  split; [exact Hfind|]. split; [exact Hr|]. split.
  - rewrite Hr. exact Hrows.
  - exact (Hexn TransportError eq_refl).
Defined.

Lemma C9_witness :
  cache_unavailable w_no_client
  /\ (exists e, fst (fetch_coin_metadata "btc" w_no_client) = Raise e
                /\ CacheUnavailable e)
  /\ http_calls (trace (snd (fetch_coin_metadata "btc" w_no_client)))
     = http_calls (trace w_no_client).
Proof.
  assert (H : cache_unavailable w_no_client) by (left; reflexivity).
  destruct (C9_cache_unavailable_is_fatal w_no_client "btc" H) as (He & Hc & _).
  split; [exact H|]. split; [exact He | exact Hc].
Defined.

Lemma C10_witness :
  find_id 1 (cryptos w_tracking_btc) = Some btc_row
  /\ update_crypto 1 {| CryptoUpdate.symbol := None |} w_tracking_btc
     = (Raise PostgresSyntaxError, w_tracking_btc)
  /\ update_crypto 1 {| CryptoUpdate.symbol := Some "" |} w_tracking_btc
     = (Raise PostgresSyntaxError, w_tracking_btc).
Proof.
  assert (Hfind : find_id 1 (cryptos w_tracking_btc) = Some btc_row) by reflexivity.
  split; [exact Hfind|]. split.
  - exact (C10_update_without_symbol_raises
             w_tracking_btc 1 btc_row {| CryptoUpdate.symbol := None |}
             Hfind eq_refl).
  - exact (C10_update_without_symbol_raises
             w_tracking_btc 1 btc_row {| CryptoUpdate.symbol := Some "" |}
             Hfind eq_refl).
Defined.

(** * The rest of the code *)

(** ** Every path of the resolver *)

(** The world a call of the resolver ends in, with what it returned. *)
Lemma fetch_cases (symbol : string) (w : World) :
  let r := fst (fetch_coin_metadata symbol w) in
  let w' := snd (fetch_coin_metadata symbol w) in
  w' = w
  \/ w' = log (RedisGet (cache_key symbol)) w
  \/ (cache_miss w symbol /\ w' = after_search symbol w)
  \/ (cache_miss w symbol /\ exists coin, r = Ok coin /\ w' = after_store symbol coin w).
Proof.
  intros r w'. subst r w'.
  destruct (redis_client w) as [srv|] eqn:H.
  2:{ left. rewrite (fetch_no_client _ _ H). reflexivity. }
  destruct (Redis.reachable srv) eqn:Hr.
  2:{ right; left. rewrite (fetch_unreachable _ _ _ H Hr). reflexivity. }
  destruct (hit_or_miss w srv symbol H Hr) as [(cached & Hhit) | Hmiss].
  { right; left. rewrite (fetch_hit _ _ _ Hhit). reflexivity. }
  rewrite (fetch_miss _ _ Hmiss).
  destruct (Httpx.outcome _) as [response|]; [|right; right; left; auto].
  destruct (negb _); [right; right; left; auto|].
  destruct (pick symbol response) as [coin|e]; [|right; right; left; auto].
  destruct (Py.truthy coin); [|right; right; left; auto].
  right; right; right. split; [exact Hmiss|]. exists coin. auto.
Qed.

(** X1: Whatever the cache holds and the source answers, one call of the
    resolver reads the cache at most once, then calls the source at most
    once, then writes the cache at most once, in that order; what it writes
    is the serialization of the record it returns, under the symbol's key,
    with an expiry of 3600 seconds. *)
Theorem resolver_touches_each_collaborator_at_most_once (symbol : string) (w : World) :
  let r := fst (fetch_coin_metadata symbol w) in
  let w' := snd (fetch_coin_metadata symbol w) in
  (exists events, trace w' = (trace w ++ events)%list /\ resolver_events symbol r events)
  /\ (http_calls (trace w') <= S (http_calls (trace w)))%nat
  /\ (redis_writes (trace w') <= S (redis_writes (trace w)))%nat
  /\ (redis_writes (trace w') <= redis_writes (trace w) + (http_calls (trace w') - http_calls (trace w)))%nat.
Proof.
  intros r w'.
  destruct (fetch_cases symbol w) as [E | [E | [[Hm E] | (Hm & coin & Er & E)]]];
    fold r in Er || idtac; fold w' in E; rewrite E.
  - split; [exists []; split; [rewrite app_nil_r; reflexivity | left; reflexivity]|].
    lia.
  - split; [eexists; split; [reflexivity | right; left; reflexivity]|].
    simpl. rewrite http_calls_app, redis_writes_app.
    unfold http_calls, redis_writes. simpl. lia.
  - rewrite trace_after_search.
    split; [eexists; split; [reflexivity | right; right; left; reflexivity]|].
    rewrite http_calls_app, redis_writes_app.
    unfold http_calls, redis_writes. simpl. lia.
  - rewrite (trace_after_store _ _ _ Hm).
    split; [eexists; split; [reflexivity | right; right; right; eauto]|].
    rewrite http_calls_app, redis_writes_app.
    unfold http_calls, redis_writes. simpl. lia.
Qed.

(** X2: The resolver never touches the table: rows and id sequence are the
    ones it found, whatever it returns or raises, and the clock it leaves
    is not before the one it found. *)
Theorem resolver_never_touches_the_table (symbol : string) (w : World) :
  let w' := snd (fetch_coin_metadata symbol w) in
  cryptos w' = cryptos w /\ next_id w' = next_id w /\ now w <= now w'.
Proof.
  intros w'.
  destruct (keeps_fetch symbol w) as (Hc & Hn & _). fold w' in Hc, Hn.
  split; [exact Hc|]. split; [exact Hn|].
  destruct (fetch_cases symbol w) as [E | [E | [[Hm E] | (Hm & coin & _ & E)]]];
    fold w' in E; rewrite E.
  - lia.
  - simpl. lia.
  - unfold after_search. simpl. lia.
  - unfold after_store, after_search. destruct Hm as (srv & H & _).
    simpl. rewrite H. simpl. lia.
Qed.

(** ** Selection at the edges *)

Lemma lower_empty (s : string) : Str.lower s = "" -> s = "".
Proof. destruct s; simpl; [reflexivity | discriminate]. Qed.

Lemma next_match_symbol_ok (symbol : string) (coins : list json) :
  symbol <> "" -> forallb symbol_ok coins = true ->
  next_match symbol coins
  = Ok (match spec_select symbol coins with Some c => c | None => JNull end).
Proof.
  intros Hne. induction coins as [|c coins IH]; simpl; [reflexivity|].
  rewrite andb_true_iff. intros [Hc Hrest]. specialize (IH Hrest).
  unfold symbol_ok, symbol_matches, symbol_field in *.
  destruct c as [| | | |?|d]; simpl in *; try discriminate.
  destruct (Py.dict_lookup "symbol" d) as [[| | |s| |]|]; simpl in *; try discriminate.
  - rewrite StrFacts.ci_equal_eqb.
    destruct (String.eqb (Str.lower s) (Str.lower symbol)); [reflexivity | exact IH].
  - destruct (Str.lower symbol) eqn:E; [|exact IH].
    apply lower_empty in E. contradiction.
Qed.

(** X3: A candidate that has no [symbol] field counts as having the empty
    symbol: it is never selected for a non-empty query (the selection is
    the specification's over candidates whose symbol is absent or a
    string), and for the empty query the first candidate is selected when
    it has no [symbol] field. *)
Theorem missing_symbol_field_is_the_empty_symbol (symbol : string) (coins : list json) :
  symbol <> "" -> forallb symbol_ok coins = true ->
  select_coin symbol (JArr coins)
  = Ok (match spec_select symbol coins with Some c => c | None => JNull end)
  /\ (forall d rest,
        Py.dict_lookup "symbol" d = None ->
        select_coin "" (JArr (JObj d :: rest)) = Ok (JObj d)).
Proof.
  intros Hne Hok. split.
  - unfold select_coin. simpl. apply next_match_symbol_ok; assumption.
  - intros d rest Hd. unfold select_coin. simpl. rewrite Hd. reflexivity.
Qed.

Lemma next_match_skip (symbol : string) (before rest : list json) :
  forallb exposes_symbol before = true -> spec_select symbol before = None ->
  next_match symbol (before ++ rest) = next_match symbol rest.
Proof.
  induction before as [|c before IH]; simpl; [reflexivity|].
  rewrite andb_true_iff. intros [Hc Hrest]. unfold spec_select. simpl.
  destruct (symbol_matches symbol c) eqn:Em; [discriminate|]. intros Hsel.
  unfold exposes_symbol, symbol_matches, symbol_field in *.
  destruct c as [| | | |?|d]; simpl in *; try discriminate.
  destruct (Py.dict_lookup "symbol" d) as [[| | |s| |]|]; simpl in *; try discriminate.
  rewrite StrFacts.ci_equal_eqb in Em. rewrite Em. apply IH; assumption.
Qed.

Lemma next_match_bad (symbol : string) (bad : json) (rest : list json) :
  symbol_ok bad = false -> next_match symbol (bad :: rest) = Raise AttributeError.
Proof.
  unfold symbol_ok. simpl.
  destruct bad as [| | | |?|d]; simpl; try reflexivity.
  destruct (Py.dict_lookup "symbol" d) as [[| | |s| |]|]; simpl;
    try reflexivity; discriminate.
Qed.

Lemma fetch_answered (w : World) (symbol : string) (data : option json) :
  cache_miss w symbol -> source_answers w symbol data ->
  fetch_coin_metadata symbol w
  = match (v <~ match data with Some v => Ok v | None => Raise JSONDecodeError end ;;
           coins <~ Py.get v "coins" (JArr []) ;;
           select_coin symbol coins) with
    | Raise e => (Raise e, after_search symbol w)
    | Ok coin_info =>
        (Ok coin_info,
         if Py.truthy coin_info then after_store symbol coin_info w
         else after_search symbol w)
    end.
Proof.
  intros Hmiss (response & Ho & Hs & Hb).
  rewrite (fetch_miss _ _ Hmiss), Ho, Hs. simpl.
  unfold pick, Httpx.json. rewrite Hb. reflexivity.
Qed.

Lemma redis_after_search (symbol : string) (w : World) :
  redis_client (after_search symbol w) = redis_client w.
Proof. reflexivity. Qed.

(** X4: The selection inspects the candidates in order and does not guard
    against a malformed one: when the candidates before the first match
    include one that is not an object, or whose [symbol] is not a string,
    the resolver raises [AttributeError] and writes nothing to the cache,
    whatever follows that candidate. *)
Theorem malformed_candidate_raises
  (w : World) (symbol : string) (data : list (string * json))
  (before after : list json) (bad : json) :
  cache_miss w symbol ->
  source_answers w symbol (Some (JObj data)) ->
  Py.dict_lookup "coins" data = Some (JArr (before ++ bad :: after)) ->
  forallb exposes_symbol before = true -> spec_select symbol before = None ->
  symbol_ok bad = false ->
  fetch_coin_metadata symbol w = (Raise AttributeError, after_search symbol w)
  /\ redis_client (after_search symbol w) = redis_client w
  /\ redis_writes (trace (after_search symbol w)) = redis_writes (trace w).
Proof.
  intros Hmiss Hsrc Hcoins Hexp Hsel Hbad.
  rewrite (fetch_answered _ _ _ Hmiss Hsrc). simpl. rewrite Hcoins.
  unfold select_coin. simpl.
  rewrite (next_match_skip _ _ _ Hexp Hsel), (next_match_bad _ _ _ Hbad).
  split; [reflexivity|]. split; [reflexivity|].
  rewrite !redis_writes_app. unfold redis_writes. simpl. lia.
Qed.

(** X5: A 200 answer whose object has no [coins] key, or an empty [coins]
    list, resolves to [None] like an answer without a match: nothing is
    raised and nothing is cached. *)
Theorem answer_without_coins_is_not_found
  (w : World) (symbol : string) (data : list (string * json)) :
  cache_miss w symbol ->
  source_answers w symbol (Some (JObj data)) ->
  Py.dict_lookup "coins" data = None \/ Py.dict_lookup "coins" data = Some (JArr []) ->
  fetch_coin_metadata symbol w = (Ok JNull, after_search symbol w)
  /\ redis_client (after_search symbol w) = redis_client w.
Proof.
  intros Hmiss Hsrc Hcoins.
  rewrite (fetch_answered _ _ _ Hmiss Hsrc). simpl.
  destruct Hcoins as [-> | ->]; split; reflexivity.
Qed.

(** X6: A 200 answer that is not what the resolver expects makes it raise
    and cache nothing: a body that is not JSON raises [JSONDecodeError], a
    JSON body that is not an object raises [AttributeError], and an object
    whose [coins] is null, a boolean or a number raises [TypeError]. *)
Theorem unexpected_answer_raises (w : World) (symbol : string) (body : option json) :
  cache_miss w symbol ->
  source_answers w symbol body ->
  let r := fetch_coin_metadata symbol w in
  (body = None -> r = (Raise JSONDecodeError, after_search symbol w))
  /\ (forall v, body = Some v -> (forall d, v <> JObj d) ->
        r = (Raise AttributeError, after_search symbol w))
  /\ (forall d c, body = Some (JObj d) -> Py.dict_lookup "coins" d = Some c ->
        Py.iter c = Raise TypeError ->
        r = (Raise TypeError, after_search symbol w))
  /\ redis_client (after_search symbol w) = redis_client w.
Proof.
  intros Hmiss Hsrc r. subst r. rewrite (fetch_answered _ _ _ Hmiss Hsrc).
  split; [|split; [|split]].
  - intros ->. reflexivity.
  - intros v -> Hv. destruct v; try reflexivity. exfalso. eapply Hv. reflexivity.
  - intros d c -> Hc Hiter. simpl. rewrite Hc. unfold select_coin.
    rewrite Hiter. reflexivity.
  - reflexivity.
Qed.

(** ** Expiry *)

(** X7: The entry a resolve wrote is served for 3600 seconds and no
    longer.  Up to and including the 3600th second after the write a
    resolve of the same symbol is answered by the entry, without a call to
    the source; any later one misses the cache and calls the source
    again. *)
Theorem cached_record_expires_after_an_hour
  (w w1 : World) (symbol : string) (coin : json) (d : Z) :
  cache_miss w symbol ->
  fetch_coin_metadata symbol w = (Ok coin, w1) ->
  Py.truthy coin = true ->
  (0 <= d <= 3600 ->
   cache_hit (advance d w1) symbol (Json.dumps coin)
   /\ http_calls (trace (snd (fetch_coin_metadata symbol (advance d w1))))
      = http_calls (trace w1))
  /\ (3600 < d ->
      cache_miss (advance d w1) symbol
      /\ http_calls (trace (snd (fetch_coin_metadata symbol (advance d w1))))
         = S (http_calls (trace w1))).
Proof.
  intros Hmiss Hf Ht.
  rewrite (fetch_miss_result _ _ _ _ Hmiss Hf Ht). split; intros Hd.
  - pose proof (after_store_served w symbol coin d Hmiss Hd) as Hhit.
    split; [exact Hhit|]. rewrite (fetch_hit _ _ _ Hhit). simpl snd.
    rewrite http_calls_log. simpl. lia.
  - assert (Hm : cache_miss (advance d (after_store symbol coin w)) symbol).
    { destruct Hmiss as (srv & H & Hr & _).
      unfold after_store, after_search. simpl. rewrite H. simpl.
      eexists. split; [reflexivity|]. split; [exact Hr|].
      unfold Redis.read, Redis.write, Redis.live. simpl.
      rewrite lookup_insert_eq. simpl.
      destruct (_ <=? _) eqn:E; [|reflexivity]. apply Z.leb_le in E. lia. }
    split; [exact Hm|]. apply (miss_calls_source _ _ Hm).
Qed.

(** ** Creating a row *)

Lemma find_id_fresh (rows : list Crypto.t) (row : Crypto.t) (n : Z) :
  Forall (fun r => Crypto.id r < n) rows -> Crypto.id row = n ->
  find_id n (rows ++ [row]) = Some row.
Proof.
  intros Hlt Hid. unfold find_id. induction Hlt as [|x rows Hx _ IH]; simpl.
  - rewrite Hid, Z.eqb_refl. reflexivity.
  - destruct (Crypto.id x =? n) eqn:E; [apply Z.eqb_eq in E; lia | exact IH].
Qed.

(** What [create_crypto] does once the duplicate check has passed, in
    terms of what the resolver did. *)
Lemma create_after_check (crypto : CryptoCreate.t) (w : World) :
  find_symbol (Str.upper (CryptoCreate.symbol crypto)) (cryptos w) = None ->
  create_crypto crypto w
  = match fetch_coin_metadata (CryptoCreate.symbol crypto) w with
    | (Raise e, w1) => (Raise e, w1)
    | (Ok metadata, w1) =>
        if negb (Py.truthy metadata)
        then (Raise (HTTPException 404 unresolved_detail), w1)
        else match Py.get metadata "name" JNull with
             | Raise e => (Raise e, w1)
             | Ok name =>
                 Crypto_create (Str.upper (CryptoCreate.symbol crypto)) name metadata w1
             end
    end.
Proof.
  intros Hfree. unfold create_crypto, bind, query_symbol_first. rewrite Hfree.
  destruct (fetch_coin_metadata _ w) as [[metadata|e] w1]; [|reflexivity].
  destruct (negb (Py.truthy metadata)); [reflexivity|].
  unfold lift. destruct (Py.get metadata "name" JNull); reflexivity.
Qed.

(** X8: Creating a symbol no row holds, when the resolver returns a
    record whose name is a string or absent, appends exactly one row: it
    takes the next id, the upper-cased symbol, the record's name and the
    whole record as metadata; the rows already there are kept, in order. *)
Theorem create_appends_the_resolved_row
  (w w1 : World) (crypto : CryptoCreate.t) (metadata name : json) (nm : option string) :
  find_symbol (Str.upper (CryptoCreate.symbol crypto)) (cryptos w) = None ->
  fetch_coin_metadata (CryptoCreate.symbol crypto) w = (Ok metadata, w1) ->
  Py.truthy metadata = true ->
  Py.get metadata "name" JNull = Ok name ->
  as_text name = Ok nm ->
  let row := created_row w (CryptoCreate.symbol crypto) nm metadata in
  create_crypto crypto w
  = (Ok row, set_table (cryptos w ++ [row]) (next_id w + 1) w1).
Proof.
  intros Hfree Hf Ht Hname Hnm row. subst row.
  destruct (keeps_fetch (CryptoCreate.symbol crypto) w) as (Hc & Hn & _).
  rewrite Hf in Hc, Hn. simpl in Hc, Hn.
  rewrite (create_after_check _ _ Hfree), Hf, Ht, Hname. simpl.
  unfold Crypto_create, created_row. rewrite Hnm, Hc, Hfree, Hn. reflexivity.
Qed.

(** X9: Creating a symbol no row holds, when the resolver finds nothing,
    raises the 404 [HTTPException]; when the resolver raises, raises the
    same exception; either way no row is inserted and no id is used. *)
Theorem create_unresolved_inserts_nothing
  (w w1 : World) (crypto : CryptoCreate.t) (r : result json) :
  find_symbol (Str.upper (CryptoCreate.symbol crypto)) (cryptos w) = None ->
  fetch_coin_metadata (CryptoCreate.symbol crypto) w = (r, w1) ->
  (NotFound r ->
   create_crypto crypto w = (Raise (HTTPException 404 unresolved_detail), w1))
  /\ (forall e, r = Raise e -> create_crypto crypto w = (Raise e, w1))
  /\ cryptos w1 = cryptos w /\ next_id w1 = next_id w.
Proof.
  intros Hfree Hf.
  destruct (keeps_fetch (CryptoCreate.symbol crypto) w) as (Hc & Hn & _).
  rewrite Hf in Hc, Hn. simpl in Hc, Hn.
  rewrite (create_after_check _ _ Hfree), Hf.
  split; [|split; [|split; assumption]].
  - intros (v & -> & Hv). rewrite Hv. reflexivity.
  - intros e ->. reflexivity.
Qed.

(** A successful create, read backwards. *)
Lemma create_ok_inv (w w1 : World) (crypto : CryptoCreate.t) (row : Crypto.t) :
  create_crypto crypto w = (Ok row, w1) ->
  find_symbol (Str.upper (CryptoCreate.symbol crypto)) (cryptos w) = None
  /\ Crypto.id row = next_id w
  /\ Crypto.symbol row = Str.upper (CryptoCreate.symbol crypto)
  /\ cryptos w1 = (cryptos w ++ [row])%list
  /\ next_id w1 = next_id w + 1
  /\ exists w0, fetch_coin_metadata (CryptoCreate.symbol crypto) w
                = (Ok (Crypto.metadata row), w0)
                /\ Py.truthy (Crypto.metadata row) = true
                /\ w1 = set_table (cryptos w ++ [row]) (next_id w + 1) w0.
Proof.
  intros H.
  destruct (find_symbol (Str.upper (CryptoCreate.symbol crypto)) (cryptos w)) eqn:Hfree.
  { unfold create_crypto, bind, query_symbol_first in H. rewrite Hfree in H.
    discriminate H. }
  rewrite (create_after_check _ _ Hfree) in H.
  destruct (keeps_fetch (CryptoCreate.symbol crypto) w) as (Hc & Hn & _).
  destruct (fetch_coin_metadata _ w) as [[metadata|e] w0]; [|discriminate H].
  simpl in Hc, Hn.
  destruct (Py.truthy metadata) eqn:Ht; [|discriminate H]. simpl in H.
  destruct (Py.get metadata "name" JNull) as [name|e]; [|discriminate H].
  unfold Crypto_create in H.
  destruct (as_text name) as [nm|e]; [|discriminate H].
  rewrite Hc, Hfree, Hn in H. injection H as <- <-. simpl.
  repeat split; eauto.
Qed.

(** X10: After a successful create on a table that satisfies its
    guarantees, reading the returned id gives back the returned row, whose
    symbol is the capital form of the one posted; and every listing of the
    table then holds that row and the rows that were there before, each
    once, in whatever order the database returns them. *)
Theorem create_then_get_returns_the_row
  (w w1 : World) (crypto : CryptoCreate.t) (row : Crypto.t) :
  table_inv w ->
  create_crypto crypto w = (Ok row, w1) ->
  get_crypto (Crypto.id row) w1 = (Ok row, w1)
  /\ Crypto.symbol row = Str.upper (CryptoCreate.symbol crypto)
  /\ (forall out, list_cryptos w1 out ->
        exists rows, out = (Ok rows, w1) /\ Permutation rows (row :: cryptos w)).
Proof.
  intros [_ Hlt] H.
  destruct (create_ok_inv _ _ _ _ H) as (_ & Hid & Hsym & Hrows & _).
  split; [|split; [exact Hsym|]].
  - unfold get_crypto, bind, Crypto_get. rewrite Hrows, Hid.
    rewrite (find_id_fresh _ _ _ Hlt Hid). reflexivity.
  - intros out (rows & Hperm & ->). exists rows. split; [reflexivity|].
    rewrite Hperm, Hrows. symmetry. apply Permutation_cons_append.
Qed.

Lemma same_letter_upper (a b : ascii) :
  Str.same_letter a b = String.eqb (Str.upper_char a) (Str.upper_char b).
Proof.
  apply Bool.eqb_prop.
  apply (StrFacts.enumerate2 (fun a b =>
    Bool.eqb (Str.same_letter a b) (String.eqb (Str.upper_char a) (Str.upper_char b)))).
  vm_compute. reflexivity.
Qed.

Lemma ci_equal_upper (s t : string) :
  Str.ci_equal s t = true -> Str.upper s = Str.upper t.
Proof.
  revert t. induction s as [|a s IH]; intros [|b t]; simpl; try congruence.
  rewrite andb_true_iff, same_letter_upper, String.eqb_eq.
  intros [-> H]. rewrite (IH _ H). reflexivity.
Qed.

Lemma find_symbol_last (rows : list Crypto.t) (row : Crypto.t) :
  exists r, find_symbol (Crypto.symbol row) (rows ++ [row]) = Some r.
Proof.
  unfold find_symbol. induction rows as [|x rows IH]; simpl.
  - rewrite String.eqb_refl. eauto.
  - destruct (String.eqb (Crypto.symbol x) (Crypto.symbol row)); eauto.
Qed.

(** X11: Once a symbol has been created, creating it again, in any
    letter case, raises the 409 [HTTPException] and changes nothing: the
    resolver is not called and the table keeps the one row. *)
Theorem second_create_conflicts_in_any_case
  (w w1 : World) (crypto again : CryptoCreate.t) (row : Crypto.t) :
  create_crypto crypto w = (Ok row, w1) ->
  Str.ci_equal (CryptoCreate.symbol again) (CryptoCreate.symbol crypto) = true ->
  create_crypto again w1 = (Raise (HTTPException 409 duplicate_detail), w1).
Proof.
  intros H Hci.
  destruct (create_ok_inv _ _ _ _ H) as (_ & _ & Hsym & Hrows & _).
  apply ci_equal_upper in Hci.
  unfold create_crypto, bind, query_symbol_first.
  rewrite Hci, <- Hsym, Hrows.
  destruct (find_symbol_last (cryptos w) row) as (r & ->). reflexivity.
Qed.

(** ** Deleting a row *)

Lemma find_id_filter_out (i : Z) (rows : list Crypto.t) :
  find_id i (List.filter (fun x => negb (Crypto.id x =? i)) rows) = None.
Proof.
  unfold find_id. induction rows as [|x rows IH]; simpl; [reflexivity|].
  destruct (Crypto.id x =? i) eqn:E; simpl; [exact IH|]. rewrite E. exact IH.
Qed.

Lemma find_id_filter_other (i j : Z) (rows : list Crypto.t) :
  j <> i ->
  find_id j (List.filter (fun x => negb (Crypto.id x =? i)) rows) = find_id j rows.
Proof.
  intros Hne. unfold find_id. induction rows as [|x rows IH]; simpl; [reflexivity|].
  destruct (Crypto.id x =? i) eqn:E; simpl.
  - apply Z.eqb_eq in E. destruct (Crypto.id x =? j) eqn:E'; [|exact IH].
    apply Z.eqb_eq in E'. congruence.
  - destruct (Crypto.id x =? j); [reflexivity | exact IH].
Qed.

Lemma Crypto_get_found (crypto_id : Z) (crypto : Crypto.t) (w : World) :
  find_id crypto_id (cryptos w) = Some crypto ->
  Crypto_get crypto_id w = (Ok (Some crypto), w).
Proof. intros H. unfold Crypto_get. rewrite H. reflexivity. Qed.

Lemma Crypto_get_absent (crypto_id : Z) (w : World) :
  find_id crypto_id (cryptos w) = None ->
  Crypto_get crypto_id w
  = (if int32 crypto_id then Ok None else Raise DataError, w).
Proof. intros H. unfold Crypto_get. rewrite H. destruct (int32 crypto_id); reflexivity. Qed.

(** X12: Deleting an id the table holds removes it for good and nothing
    else: a read of that id afterwards raises the 404 [HTTPException],
    every other id reads as before, and neither the cache nor the source
    is touched, so what was cached for the deleted symbol stays cached.
    Deleting an id the table does not hold changes nothing: it raises the
    404 when the id is a 32-bit integer, and otherwise the error of the
    driver, which cannot send the id to the database. *)
Theorem delete_removes_the_row_only (w : World) (crypto_id : Z) :
  let w' := snd (delete_crypto crypto_id w) in
  (find_id crypto_id (cryptos w) = None ->
   delete_crypto crypto_id w
   = (Raise (if int32 crypto_id then HTTPException 404 absent_detail else DataError), w))
  /\ (forall crypto, find_id crypto_id (cryptos w) = Some crypto ->
        int32 crypto_id = true ->
        fst (delete_crypto crypto_id w) = Ok tt
        /\ get_crypto crypto_id w' = (Raise (HTTPException 404 absent_detail), w')
        /\ (forall j, j <> crypto_id ->
              fst (get_crypto j w') = fst (get_crypto j w)))
  /\ redis_client w' = redis_client w
  /\ trace w' = trace w
  /\ next_id w' = next_id w.
Proof.
  intros w'. subst w'. unfold delete_crypto, bind.
  destruct (find_id crypto_id (cryptos w)) as [crypto|] eqn:Hfind.
  - destruct (find_id_in _ _ _ Hfind) as [_ Hid].
    rewrite (Crypto_get_found _ _ _ Hfind).
    unfold Crypto_delete. simpl. rewrite Hid.
    split; [discriminate|]. split; [|repeat split].
    intros c _ Hrange. split; [reflexivity|]. split.
    + unfold get_crypto, bind. rewrite Crypto_get_absent.
      * rewrite Hrange. reflexivity.
      * apply find_id_filter_out.
    + intros j Hj. unfold get_crypto, bind, Crypto_get. simpl.
      rewrite (find_id_filter_other _ _ _ Hj).
      destruct (find_id j (cryptos w)); [reflexivity|].
      destruct (int32 j); reflexivity.
  - rewrite (Crypto_get_absent _ _ Hfind).
    destruct (int32 crypto_id); simpl; (split; [reflexivity|]);
      (split; [discriminate | repeat split]).
Qed.

(** ** Updating a row *)

Lemma assign_id (r r' : Crypto.t) (kv : string * json) :
  assign r kv = Ok r' -> Crypto.id r' = Crypto.id r.
Proof.
  destruct kv as [col v]. unfold assign.
  destruct (String.eqb col "symbol").
  { destruct v; intros [= <-] || discriminate. reflexivity. }
  destruct (String.eqb col "name").
  { destruct (as_text v); simpl; intros [= <-] || discriminate. reflexivity. }
  destruct (String.eqb col "metadata"); [intros [= <-]; reflexivity | discriminate].
Qed.

Lemma assign_all_id (values : list (string * json)) (r r' : Crypto.t) :
  assign_all r values = Ok r' -> Crypto.id r' = Crypto.id r.
Proof.
  revert r. induction values as [|kv values IH]; simpl; intros r.
  - intros [= <-]. reflexivity.
  - destruct (assign r kv) as [r1|e] eqn:E; simpl; [|discriminate].
    intros H. rewrite (IH _ H). apply (assign_id _ _ _ E).
Qed.

Lemma find_id_replace (r : Crypto.t) (rows : list Crypto.t) :
  (exists x, find_id (Crypto.id r) rows = Some x) ->
  find_id (Crypto.id r) (replace_row r rows) = Some r.
Proof.
  intros (x & H). unfold find_id, replace_row in *.
  induction rows as [|y rows IH]; simpl in *; [discriminate|].
  destruct (Crypto.id y =? Crypto.id r) eqn:E.
  - rewrite Z.eqb_refl. reflexivity.
  - rewrite E. apply IH, H.
Qed.

Lemma find_id_replace_other (r : Crypto.t) (j : Z) (rows : list Crypto.t) :
  j <> Crypto.id r ->
  find_id j (replace_row r rows) = find_id j rows.
Proof.
  intros Hne. unfold find_id, replace_row.
  induction rows as [|y rows IH]; simpl; [reflexivity|].
  destruct (Crypto.id y =? Crypto.id r) eqn:E.
  - apply Z.eqb_eq in E.
    destruct (Crypto.id r =? j) eqn:E1; [apply Z.eqb_eq in E1; congruence|].
    destruct (Crypto.id y =? j) eqn:E2; [apply Z.eqb_eq in E2; congruence|].
    exact IH.
  - destruct (Crypto.id y =? j); [reflexivity | exact IH].
Qed.

(** [apply] when the assignments are accepted and the symbol is free. *)
Lemma apply_ok (crypto crypto' x : Crypto.t) {kv : string * json}
  (values : list (string * json)) (w : World) :
  assign_all crypto (kv :: values) = Ok crypto' ->
  find_id (Crypto.id crypto) (cryptos w) = Some x ->
  symbol_taken crypto' (cryptos w) = false ->
  Crypto_update_apply crypto (kv :: values) w
  = (Ok crypto', set_table (replace_row crypto' (cryptos w)) (next_id w) w).
Proof.
  intros Ha Hf Ht. unfold Crypto_update_apply. rewrite Ha, Hf, Ht. reflexivity.
Qed.

(** What [refresh_crypto] does with the row it found, in terms of what
    the resolver did. *)
Lemma refresh_after_get (w : World) (crypto_id : Z) (crypto : Crypto.t) :
  find_id crypto_id (cryptos w) = Some crypto ->
  refresh_crypto crypto_id w
  = match fetch_coin_metadata (Crypto.symbol crypto) w with
    | (Raise e, w1) => (Raise e, w1)
    | (Ok metadata, w1) =>
        if negb (Py.truthy metadata)
        then (Raise (HTTPException 404 unresolved_refresh_detail), w1)
        else match Py.get metadata "name" JNull with
             | Raise e => (Raise e, w1)
             | Ok name =>
                 Crypto_update_apply crypto [("name", name); ("metadata", metadata)] w1
             end
    end.
Proof.
  intros Hfind. unfold refresh_crypto, bind, Crypto_get. rewrite Hfind.
  destruct (fetch_coin_metadata _ w) as [[metadata|e] w1]; [|reflexivity].
  destruct (negb (Py.truthy metadata)); [reflexivity|].
  unfold lift. destruct (Py.get metadata "name" JNull); reflexivity.
Qed.

Lemma update_after_get (w : World) (crypto_id : Z) (crypto : Crypto.t)
  (c : ascii) (s : string) :
  find_id crypto_id (cryptos w) = Some crypto ->
  update_crypto crypto_id {| CryptoUpdate.symbol := Some (String c s) |} w
  = match fetch_coin_metadata (String c s) w with
    | (Raise e, w1) => (Raise e, w1)
    | (Ok metadata, w1) =>
        if negb (Py.truthy metadata)
        then (Raise (HTTPException 404 unresolved_detail), w1)
        else match Py.get metadata "name" JNull with
             | Raise e => (Raise e, w1)
             | Ok name =>
                 Crypto_update_apply crypto
                   [("symbol", JStr (Str.upper (String c s))); ("name", name);
                    ("metadata", metadata)] w1
             end
    end.
Proof.
  intros Hfind. unfold update_crypto, bind, Crypto_get. rewrite Hfind. simpl.
  unfold bind.
  destruct (fetch_coin_metadata _ w) as [[metadata|e] w1]; [|reflexivity].
  destruct (negb (Py.truthy metadata)); [reflexivity|].
  unfold lift. destruct (Py.get metadata "name" JNull); reflexivity.
Qed.

(** X13: Refreshing a row of a table whose keys are unique, when the
    resolver returns a record whose name is a string or absent,
    overwrites the row's name and metadata with the record's and keeps its
    id and symbol; reading the id afterwards gives the new row, and every
    other id reads as before. *)
Theorem refresh_overwrites_name_and_metadata
  (w w1 : World) (crypto_id : Z) (crypto : Crypto.t)
  (metadata name : json) (nm : option string) :
  table_ok (cryptos w) ->
  find_id crypto_id (cryptos w) = Some crypto ->
  fetch_coin_metadata (Crypto.symbol crypto) w = (Ok metadata, w1) ->
  Py.truthy metadata = true ->
  Py.get metadata "name" JNull = Ok name ->
  as_text name = Ok nm ->
  let row := {| Crypto.id := Crypto.id crypto; Crypto.symbol := Crypto.symbol crypto;
                Crypto.name := nm; Crypto.metadata := metadata |} in
  let w' := snd (refresh_crypto crypto_id w) in
  fst (refresh_crypto crypto_id w) = Ok row
  /\ get_crypto crypto_id w' = (Ok row, w')
  /\ (forall j, j <> crypto_id -> fst (get_crypto j w') = fst (get_crypto j w))
  /\ trace w' = trace w1 /\ redis_client w' = redis_client w1.
Proof.
  intros [Hids Hsyms] Hfind Hf Ht Hname Hnm row w'. subst w'.
  destruct (find_id_in _ _ _ Hfind) as [Hin Hid].
  destruct (keeps_fetch (Crypto.symbol crypto) w) as (Hc & Hn & _).
  rewrite Hf in Hc, Hn. simpl in Hc, Hn.
  rewrite (refresh_after_get _ _ _ Hfind), Hf, Ht, Hname. simpl.
  assert (Ha : assign_all crypto [("name", name); ("metadata", metadata)] = Ok row).
  { simpl. rewrite Hnm. reflexivity. }
  assert (Htaken : symbol_taken row (cryptos w1) = false).
  { rewrite Hc. change (symbol_taken row (cryptos w)) with (symbol_taken crypto (cryptos w)).
    apply symbol_not_taken; assumption. }
  assert (Hfind1 : find_id (Crypto.id crypto) (cryptos w1) = Some crypto)
    by (rewrite Hc, Hid; exact Hfind).
  rewrite (apply_ok _ _ _ _ _ Ha Hfind1 Htaken). simpl.
  split; [reflexivity|]. split; [|split; [|split; reflexivity]].
  - unfold get_crypto, bind, Crypto_get. simpl. rewrite <- Hid.
    change (Crypto.id crypto) with (Crypto.id row) at 1.
    rewrite find_id_replace; [reflexivity|]. simpl. eauto.
  - intros j Hj. unfold get_crypto, bind, Crypto_get. simpl.
    rewrite find_id_replace_other by (simpl; congruence). rewrite Hc.
    destruct (find_id j (cryptos w)); [reflexivity|].
    destruct (int32 j); reflexivity.
Qed.

(** X14: Updating a row to a symbol that no other row holds, when the
    resolver returns a record whose name is a string or absent, gives the
    row the upper-cased symbol, the record's name and the record as
    metadata, and keeps its id; every other id reads as before. *)
Theorem update_renames_the_row
  (w w1 : World) (crypto_id : Z) (crypto : Crypto.t) (c : ascii) (s : string)
  (metadata name : json) (nm : option string) :
  find_id crypto_id (cryptos w) = Some crypto ->
  (forall x, In x (cryptos w) -> Crypto.symbol x = Str.upper (String c s) ->
             Crypto.id x = crypto_id) ->
  fetch_coin_metadata (String c s) w = (Ok metadata, w1) ->
  Py.truthy metadata = true ->
  Py.get metadata "name" JNull = Ok name ->
  as_text name = Ok nm ->
  let row := {| Crypto.id := Crypto.id crypto; Crypto.symbol := Str.upper (String c s);
                Crypto.name := nm; Crypto.metadata := metadata |} in
  let crypto_data := {| CryptoUpdate.symbol := Some (String c s) |} in
  let w' := snd (update_crypto crypto_id crypto_data w) in
  fst (update_crypto crypto_id crypto_data w) = Ok row
  /\ get_crypto crypto_id w' = (Ok row, w')
  /\ (forall j, j <> crypto_id -> fst (get_crypto j w') = fst (get_crypto j w)).
Proof.
  intros Hfind Hfree Hf Ht Hname Hnm row crypto_data w'. subst w' crypto_data.
  destruct (find_id_in _ _ _ Hfind) as [Hin Hid].
  destruct (keeps_fetch (String c s) w) as (Hc & Hn & _).
  rewrite Hf in Hc, Hn. simpl in Hc, Hn.
  rewrite (update_after_get _ _ _ _ _ Hfind), Hf, Ht, Hname. simpl negb. cbv iota.
  assert (Ha : assign_all crypto [("symbol", JStr (Str.upper (String c s)));
                                  ("name", name); ("metadata", metadata)] = Ok row).
  { simpl. rewrite Hnm. reflexivity. }
  assert (Htaken : symbol_taken row (cryptos w1) = false).
  { rewrite Hc. unfold symbol_taken.
    destruct (existsb _ (cryptos w)) eqn:E; [|reflexivity].
    apply existsb_exists in E as (x & Hx & H).
    apply andb_true_iff in H as [Hs Hi]. apply String.eqb_eq in Hs.
    simpl in Hs, Hi. rewrite (Hfree x Hx Hs), Hid, Z.eqb_refl in Hi. discriminate. }
  assert (Hfind1 : find_id (Crypto.id crypto) (cryptos w1) = Some crypto)
    by (rewrite Hc, Hid; exact Hfind).
  rewrite (apply_ok _ _ _ _ _ Ha Hfind1 Htaken). simpl fst. simpl snd.
  split; [reflexivity|]. split.
  - unfold get_crypto, bind, Crypto_get. simpl. rewrite <- Hid.
    change (Crypto.id crypto) with (Crypto.id row) at 1.
    rewrite find_id_replace; [reflexivity|]. simpl. eauto.
  - intros j Hj. unfold get_crypto, bind, Crypto_get. simpl.
    rewrite find_id_replace_other by (simpl; congruence). rewrite Hc.
    destruct (find_id j (cryptos w)); [reflexivity|].
    destruct (int32 j); reflexivity.
Qed.

(** X15: [update_crypto] has no duplicate check of its own: renaming a
    row to a symbol another row holds first resolves the symbol (an
    external call, and a cache write, can happen) and then fails on the
    table's unique constraint, not with the 409 of a create; no row
    changes. *)
Theorem update_to_a_held_symbol_violates_the_constraint
  (w w1 : World) (crypto_id : Z) (crypto other : Crypto.t) (c : ascii) (s : string)
  (metadata name : json) (nm : option string) :
  find_id crypto_id (cryptos w) = Some crypto ->
  In other (cryptos w) ->
  Crypto.symbol other = Str.upper (String c s) ->
  Crypto.id other <> crypto_id ->
  fetch_coin_metadata (String c s) w = (Ok metadata, w1) ->
  Py.truthy metadata = true ->
  Py.get metadata "name" JNull = Ok name ->
  as_text name = Ok nm ->
  update_crypto crypto_id {| CryptoUpdate.symbol := Some (String c s) |} w
  = (Raise UniqueViolationError, w1)
  /\ cryptos w1 = cryptos w.
Proof.
  intros Hfind Hin Hsym Hne Hf Ht Hname Hnm.
  destruct (find_id_in _ _ _ Hfind) as [_ Hid].
  destruct (keeps_fetch (String c s) w) as (Hc & Hn & _).
  rewrite Hf in Hc, Hn. simpl in Hc, Hn.
  rewrite (update_after_get _ _ _ _ _ Hfind), Hf, Ht, Hname. simpl negb. cbv iota.
  split; [|exact Hc].
  unfold Crypto_update_apply. simpl assign_all. rewrite Hnm. simpl rbind.
  rewrite Hc, Hid, Hfind.
  assert (Htaken : forall r, Crypto.symbol r = Str.upper (String c s) ->
                             Crypto.id r = crypto_id ->
                             symbol_taken r (cryptos w) = true).
  { intros r Hs Hi. unfold symbol_taken. apply existsb_exists. exists other.
    split; [exact Hin|]. rewrite Hs, Hsym, String.eqb_refl, Hi. simpl.
    apply negb_true_iff, Z.eqb_neq, Hne. }
  rewrite Htaken; reflexivity.
Qed.

(** ** The table's guarantees *)

Lemma keeps_table_inv {A} (m : M A) : keeps_table m -> keeps_inv m.
Proof.
  intros Hm w [Hok Hlt]. destruct (Hm w) as (Hc & Hn & _).
  unfold table_inv. rewrite Hc, Hn. split; assumption.
Qed.

Lemma keeps_inv_bind {A B} (m : M A) (k : A -> M B) :
  keeps_inv m -> (forall a, keeps_inv (k a)) -> keeps_inv (bind m k).
Proof.
  intros Hm Hk w Hw. unfold bind. specialize (Hm w Hw).
  destruct (m w) as [[a|e] w1]; simpl in *; [apply Hk, Hm | exact Hm].
Qed.

Lemma keeps_inv_raise {A} (e : Exn) : keeps_inv (@raise A e).
Proof. intros w Hw. exact Hw. Qed.

Lemma not_in_map {A B} (f : A -> B) (l : list A) (b : B) :
  (forall x, In x l -> f x <> b) -> b ∉ map f l.
Proof.
  intros H Hin. apply list_elem_of_In, in_map_iff in Hin as (x & E & Hx).
  exact (H x Hx E).
Qed.

Lemma NoDup_map_snoc {A B} (f : A -> B) (l : list A) (a : A) :
  NoDup (map f l) -> (forall x, In x l -> f x <> f a) -> NoDup (map f (l ++ [a])).
Proof.
  intros Hnd Hfresh. rewrite map_app. apply NoDup_app. split; [exact Hnd|].
  split; [|apply NoDup_singleton].
  intros b Hb Hb'. apply list_elem_of_In in Hb, Hb'.
  apply in_map_iff in Hb as (x & E & Hx). simpl in Hb'.
  destruct Hb' as [<- | []]. exact (Hfresh x Hx E).
Qed.

Lemma keeps_inv_create (symbol : string) (name metadata : json) :
  keeps_inv (Crypto_create symbol name metadata).
Proof.
  intros w [[Hids Hsyms] Hlt]. unfold Crypto_create.
  destruct (as_text name) as [nm|e]; [|split; [split|]; assumption].
  destruct (find_symbol symbol (cryptos w)) eqn:Hfree; simpl.
  - split; [split; assumption|].
    eapply Forall_impl; [exact Hlt|]. simpl. intros; lia.
  - rewrite Forall_forall in Hlt. split; [split|].
    + apply NoDup_map_snoc; [exact Hids|]. simpl.
      intros x Hx. apply list_elem_of_In, Hlt in Hx. lia.
    + apply NoDup_map_snoc; [exact Hsyms|]. simpl. intros x Hx E.
      pose proof (find_none _ _ Hfree x Hx) as H. simpl in H.
      rewrite E, String.eqb_refl in H. discriminate.
    + apply Forall_app. split.
      * apply Forall_forall. intros x Hx. apply Hlt in Hx. simpl. lia.
      * constructor; [simpl; lia | constructor].
Qed.

Lemma keeps_inv_create_crypto (crypto : CryptoCreate.t) : keeps_inv (create_crypto crypto).
Proof.
  unfold create_crypto. apply keeps_inv_bind; [intros w Hw; exact Hw|].
  intros [r|]; [apply keeps_inv_raise|].
  apply keeps_inv_bind; [apply keeps_table_inv, keeps_fetch|]. intros metadata.
  destruct (negb (Py.truthy metadata)); [apply keeps_inv_raise|].
  apply keeps_inv_bind; [intros w Hw; exact Hw|]. intros name.
  apply keeps_inv_create.
Qed.

(** ** A refresh soon after a create *)

Lemma lower_append (a b : string) : Str.lower (a +:+ b) = Str.lower a +:+ Str.lower b.
Proof.
  induction a as [|c a IH]; [reflexivity|].
  rewrite JsonFacts.append_cons. simpl. rewrite IH, JsonFacts.append_cons. reflexivity.
Qed.

Lemma lower_upper_char (c : ascii) :
  Str.plain_case (String c "") = true ->
  Str.lower (Str.upper_char c) = String (Str.lower_char c) "".
Proof. destruct c as [[] [] [] [] [] [] [] []]; intros H; try reflexivity; discriminate H. Qed.

Lemma lower_upper (s : string) :
  Str.plain_case s = true -> Str.lower (Str.upper s) = Str.lower s.
Proof.
  induction s as [|c s IH]; [reflexivity|].
  unfold Str.plain_case. simpl list_ascii_of_string. simpl forallb.
  rewrite andb_true_iff. intros [Hc Hs].
  simpl Str.upper. rewrite lower_append, (IH Hs), lower_upper_char.
  - reflexivity.
  - unfold Str.plain_case. simpl. rewrite Hc. reflexivity.
Qed.

Lemma cache_key_upper (s : string) :
  Str.plain_case s = true -> cache_key (Str.upper s) = cache_key s.
Proof. intros H. unfold cache_key. rewrite (lower_upper _ H). reflexivity. Qed.

Lemma cache_hit_ext (w w' : World) (symbol symbol' cached : string) :
  redis_client w' = redis_client w -> now w' = now w ->
  cache_key symbol' = cache_key symbol ->
  cache_hit w symbol cached -> cache_hit w' symbol' cached.
Proof.
  intros Hr Hn Hk (srv & H & Hup & Hread & Hne).
  exists srv. rewrite Hr, Hn, Hk. auto.
Qed.

Lemma set_table_same (w : World) : set_table (cryptos w) (next_id w) w = w.
Proof. destruct w; reflexivity. Qed.

Lemma create_ok_name (w w1 : World) (crypto : CryptoCreate.t) (row : Crypto.t) :
  create_crypto crypto w = (Ok row, w1) ->
  exists name, Py.get (Crypto.metadata row) "name" JNull = Ok name
               /\ as_text name = Ok (Crypto.name row).
Proof.
  intros H.
  destruct (find_symbol (Str.upper (CryptoCreate.symbol crypto)) (cryptos w)) eqn:Hfree.
  { unfold create_crypto, bind, query_symbol_first in H. rewrite Hfree in H.
    discriminate H. }
  rewrite (create_after_check _ _ Hfree) in H.
  destruct (fetch_coin_metadata _ w) as [[metadata|e] w0]; [|discriminate H].
  destruct (negb (Py.truthy metadata)); [discriminate H|].
  destruct (Py.get metadata "name" JNull) as [name|e] eqn:Hname; [|discriminate H].
  unfold Crypto_create in H.
  destruct (as_text name) as [nm|e] eqn:Hnm; [|discriminate H].
  destruct (find_symbol _ (cryptos w0)); [discriminate H|].
  injection H as <- _. simpl. eauto.
Qed.

(** X17: A refresh does not reach the source while the record is cached:
    when a create missed the cache and stored its record, refreshing the
    new row less than 3600 seconds later returns the row as it was created;
    the request reads the cache once, under the key of the symbol that was
    posted although the row holds its capital form, makes no call to the
    source, and leaves the cache and every row as they were.  The symbol
    holds no character whose capital is not a single character of the
    range: for the sharp s the capital form is [SS], whose key is another
    one. *)
Theorem refresh_soon_after_create_is_served_by_the_cache
  (w w1 : World) (crypto : CryptoCreate.t) (row : Crypto.t) (d : Z) :
  table_inv w ->
  Str.plain_case (CryptoCreate.symbol crypto) = true ->
  cache_miss w (CryptoCreate.symbol crypto) ->
  create_crypto crypto w = (Ok row, w1) ->
  Json.wf (Crypto.metadata row) = true ->
  0 <= d < 3600 ->
  fst (refresh_crypto (Crypto.id row) (advance d w1)) = Ok row
  /\ trace (snd (refresh_crypto (Crypto.id row) (advance d w1)))
     = (trace w1
        ++ [RedisGet ("coingecko:" +:+ Str.lower (CryptoCreate.symbol crypto))])%list
  /\ http_calls (trace (snd (refresh_crypto (Crypto.id row) (advance d w1))))
     = http_calls (trace w1)
  /\ redis_client (snd (refresh_crypto (Crypto.id row) (advance d w1)))
     = redis_client w1
  /\ (forall j, find_id j (cryptos (snd (refresh_crypto (Crypto.id row) (advance d w1))))
                = find_id j (cryptos w1)).
Proof.
  intros Hinv Hplain Hmiss Hcreate Hwf Hd.
  pose proof (keeps_inv_create_crypto crypto w Hinv) as Hinv1.
  rewrite Hcreate in Hinv1. simpl in Hinv1. destruct Hinv1 as [[Hids Hsyms] _].
  destruct (create_ok_name _ _ _ _ Hcreate) as (name & Hname & Hnm).
  destruct (create_ok_inv _ _ _ _ Hcreate)
    as (_ & Hid & Hsym & Hrows & _ & w0 & Hf & Ht & Hw1).
  pose proof (fetch_miss_result _ _ _ _ Hmiss Hf Ht) as Hw0.
  set (w2 := advance d w1).
  assert (Hin : In row (cryptos w1)) by (rewrite Hrows; apply in_or_app; right; left; reflexivity).
  assert (Hfind : find_id (Crypto.id row) (cryptos w2) = Some row).
  { destruct Hinv as [_ Hlt]. unfold w2. simpl. rewrite Hrows, Hid.
    apply find_id_fresh; assumption. }
  assert (Hkey : cache_key (Crypto.symbol row) = cache_key (CryptoCreate.symbol crypto))
    by (rewrite Hsym; apply cache_key_upper, Hplain).
  assert (Hhit : cache_hit w2 (Crypto.symbol row) (Json.dumps (Crypto.metadata row))).
  { apply cache_hit_ext
      with (w := advance d (after_store (CryptoCreate.symbol crypto)
                                        (Crypto.metadata row) w))
           (symbol := CryptoCreate.symbol crypto).
    - unfold w2. rewrite Hw1, Hw0. reflexivity.
    - unfold w2. rewrite Hw1, Hw0. reflexivity.
    - exact Hkey.
    - apply after_store_hit; assumption. }
  assert (Hrefresh : refresh_crypto (Crypto.id row) w2
                     = (Ok row, log (RedisGet (cache_key (CryptoCreate.symbol crypto))) w2)).
  { rewrite (refresh_after_get _ _ _ Hfind), (fetch_hit _ _ _ Hhit).
    rewrite (JsonFacts.loads_dumps _ Hwf), Ht, Hname, Hkey. simpl negb. cbv iota.
    set (W := log (RedisGet (cache_key (CryptoCreate.symbol crypto))) w2).
    assert (Ha : assign_all row [("name", name); ("metadata", Crypto.metadata row)] = Ok row).
    { simpl. rewrite Hnm. simpl. destruct row; reflexivity. }
    assert (HfindW : find_id (Crypto.id row) (cryptos W) = Some row) by exact Hfind.
    assert (Htaken : symbol_taken row (cryptos W) = false)
      by (apply symbol_not_taken; assumption).
    rewrite (apply_ok _ _ _ _ _ Ha HfindW Htaken).
    change (cryptos W) with (cryptos w1).
    rewrite (replace_row_same _ _ Hids Hin).
    change (cryptos w1) with (cryptos W). rewrite set_table_same. reflexivity. }
  rewrite Hrefresh. simpl fst. simpl snd.
  split; [reflexivity|]. split; [reflexivity|]. split.
  - rewrite http_calls_log. simpl. unfold w2. simpl. lia.
  - split; [reflexivity|]. intros j. reflexivity.
Qed.

(** ** The cached text *)

(** X18: The text the resolver stores is read back as the record it was
    made from, whatever the record: [json.loads] inverts [json.dumps] on
    every JSON value in which no object repeats a key, so two different
    records never share a cached text, and the text is never empty (never
    mistaken for a miss). *)
Theorem cached_text_determines_the_record (v : json) :
  Json.wf v = true ->
  Json.loads (Json.dumps v) = Ok v
  /\ Str.truthy (Some (Json.dumps v)) = true
  /\ (forall v', Json.wf v' = true -> Json.dumps v' = Json.dumps v -> v' = v).
Proof.
  intros Hwf. split; [apply JsonFacts.loads_dumps, Hwf|]. split.
  - pose proof (JsonFacts.dumps_nonempty v) as Hne.
    destruct (Json.dumps v); [congruence | reflexivity].
  - intros v' Hwf' E.
    pose proof (JsonFacts.loads_dumps v' Hwf') as H'.
    rewrite E, (JsonFacts.loads_dumps v Hwf) in H'. congruence.
Qed.

(** ** These theorems at concrete worlds *)

Lemma answers_body_answers (rows : list Crypto.t) (symbol : string) (body : option json) :
  source_answers (world_with (Some empty_redis) rows (answers_body body)) symbol body.
Proof. eexists. split; [reflexivity|]. split; reflexivity. Qed.

Lemma ok_with_answers (rows : list Crypto.t) (symbol : string) (coins : list json) :
  source_answers (world_with (Some empty_redis) rows (answers (ok_with coins))) symbol
                 (Some (search_body coins)).
Proof. eexists. split; [reflexivity|]. split; reflexivity. Qed.

Lemma sample_table_inv (rows : list Crypto.t) (srv : option Redis.server)
  (up : nat -> string -> Httpx.exchange) :
  bool_decide (NoDup (map Crypto.id rows)) = true ->
  bool_decide (NoDup (map Crypto.symbol rows)) = true ->
  forallb (fun r => Crypto.id r <? 1 + Z.of_nat (length rows)) rows = true ->
  table_inv (world_with srv rows up).
Proof.
  intros H1 H2 H3. split; [split|].
  - apply bool_decide_eq_true in H1. exact H1.
  - apply bool_decide_eq_true in H2. exact H2.
  - simpl. apply Forall_forall. intros r Hr. rewrite forallb_forall in H3.
    apply Z.ltb_lt, H3, list_elem_of_In, Hr.
Qed.

Lemma X3_witness :
  "btc" <> "" /\ forallb symbol_ok [unnamed_coin; btc] = true
  /\ select_coin "btc" (JArr [unnamed_coin; btc]) = Ok btc
  /\ select_coin "" (JArr [unnamed_coin; btc]) = Ok unnamed_coin.
Proof.
  assert (Hne : "btc" <> "") by discriminate.
  assert (Hok : forallb symbol_ok [unnamed_coin; btc] = true) by reflexivity.
  destruct (missing_symbol_field_is_the_empty_symbol "btc" [unnamed_coin; btc] Hne Hok)
    as [Hsel Hempty].
  split; [exact Hne|]. split; [exact Hok|]. split.
  - rewrite Hsel. reflexivity.
  - apply Hempty. reflexivity.
Defined.

Lemma X4_witness :
  cache_miss w_malformed "btc"
  /\ spec_select "btc" [btc2] = None /\ symbol_ok odd_coin = false
  /\ fetch_coin_metadata "btc" w_malformed
     = (Raise AttributeError, after_search "btc" w_malformed).
Proof.
  assert (Hmiss : cache_miss w_malformed "btc") by apply miss_on_empty_redis.
  assert (Hsel : spec_select "btc" [btc2] = None) by reflexivity.
  assert (Hbad : symbol_ok odd_coin = false) by reflexivity.
  split; [exact Hmiss|]. split; [exact Hsel|]. split; [exact Hbad|].
  apply (malformed_candidate_raises w_malformed "btc"
           [("coins", JArr [btc2; odd_coin; btc]); ("exchanges", JArr [])]
           [btc2] [btc] odd_coin Hmiss).
  - apply ok_with_answers.
  - reflexivity.
  - reflexivity.
  - exact Hsel.
  - exact Hbad.
Defined.

Lemma X5_witness :
  cache_miss w_no_coins "btc"
  /\ fetch_coin_metadata "btc" w_no_coins = (Ok JNull, after_search "btc" w_no_coins).
Proof.
  assert (Hmiss : cache_miss w_no_coins "btc") by apply miss_on_empty_redis.
  split; [exact Hmiss|].
  apply (answer_without_coins_is_not_found w_no_coins "btc"
           [("exchanges", JArr [])] Hmiss).
  - apply answers_body_answers.
  - left. reflexivity.
Defined.

Lemma X6_witness :
  cache_miss w_not_json "btc"
  /\ fetch_coin_metadata "btc" w_not_json
     = (Raise JSONDecodeError, after_search "btc" w_not_json).
Proof.
  assert (Hmiss : cache_miss w_not_json "btc") by apply miss_on_empty_redis.
  split; [exact Hmiss|].
  apply (unexpected_answer_raises w_not_json "btc" None Hmiss
           (answers_body_answers [] "btc" None)).
  reflexivity.
Defined.

Lemma X7_witness :
  cache_miss w_fresh "btc"
  /\ cache_hit (advance 3600 (snd (fetch_coin_metadata "btc" w_fresh))) "btc"
               (Json.dumps btc)
  /\ cache_miss (advance 3601 (snd (fetch_coin_metadata "btc" w_fresh))) "btc"
  /\ http_calls (trace (snd (fetch_coin_metadata "btc"
                               (advance 3601 (snd (fetch_coin_metadata "btc" w_fresh))))))
     = 2%nat.
Proof.
  assert (Hmiss : cache_miss w_fresh "btc") by apply miss_on_empty_redis.
  assert (Hf : fetch_coin_metadata "btc" w_fresh
               = (Ok btc, snd (fetch_coin_metadata "btc" w_fresh)))
    by (vm_compute; reflexivity).
  destruct (cached_record_expires_after_an_hour
              w_fresh _ "btc" btc 3600 Hmiss Hf eq_refl) as [Hserved _].
  destruct (cached_record_expires_after_an_hour
              w_fresh _ "btc" btc 3601 Hmiss Hf eq_refl) as [_ Hgone].
  destruct (Hserved ltac:(lia)) as [Hhit _].
  destruct (Hgone ltac:(lia)) as [Hm Hcalls].
  split; [exact Hmiss|]. split; [exact Hhit|]. split; [exact Hm|].
  rewrite Hcalls. reflexivity.
Defined.

Lemma X8_witness :
  find_symbol (Str.upper "eth") (cryptos w_listing_eth) = None
  /\ fst (create_crypto {| CryptoCreate.symbol := "eth" |} w_listing_eth) = Ok eth_row
  /\ cryptos (snd (create_crypto {| CryptoCreate.symbol := "eth" |} w_listing_eth))
     = [btc_row; eth_row].
Proof.
  assert (Hfree : find_symbol (Str.upper "eth") (cryptos w_listing_eth) = None)
    by reflexivity.
  assert (Hf : fetch_coin_metadata "eth" w_listing_eth
               = (Ok eth, snd (fetch_coin_metadata "eth" w_listing_eth)))
    by (vm_compute; reflexivity).
  pose proof (create_appends_the_resolved_row
                w_listing_eth _ {| CryptoCreate.symbol := "eth" |} eth
                (JStr "Ethereum") (Some "Ethereum") Hfree Hf eq_refl eq_refl eq_refl)
    as H.
  cbv zeta in H. split; [exact Hfree|]. rewrite H. split; reflexivity.
Defined.

Lemma X9_witness :
  find_symbol (Str.upper "eth") (cryptos w_unlisted) = None
  /\ create_crypto {| CryptoCreate.symbol := "eth" |} w_unlisted
     = (Raise (HTTPException 404 unresolved_detail),
        snd (fetch_coin_metadata "eth" w_unlisted))
  /\ cryptos (snd (fetch_coin_metadata "eth" w_unlisted)) = [btc_row].
Proof.
  assert (Hfree : find_symbol (Str.upper "eth") (cryptos w_unlisted) = None)
    by reflexivity.
  assert (Hf : fetch_coin_metadata "eth" w_unlisted
               = (Ok JNull, snd (fetch_coin_metadata "eth" w_unlisted)))
    by (vm_compute; reflexivity).
  destruct (create_unresolved_inserts_nothing
              w_unlisted _ {| CryptoCreate.symbol := "eth" |} (Ok JNull) Hfree Hf)
    as (Hnf & _ & Hrows & _).
  split; [exact Hfree|]. split; [|exact Hrows].
  apply Hnf. exists JNull. split; reflexivity.
Defined.

Lemma X10_witness :
  table_inv w_listing_eth
  /\ get_crypto 2 (snd (create_crypto {| CryptoCreate.symbol := "eth" |} w_listing_eth))
     = (Ok eth_row, snd (create_crypto {| CryptoCreate.symbol := "eth" |} w_listing_eth)).
Proof.
  assert (Hinv : table_inv w_listing_eth) by (apply sample_table_inv; reflexivity).
  assert (Hc : create_crypto {| CryptoCreate.symbol := "eth" |} w_listing_eth
               = (Ok eth_row,
                  snd (create_crypto {| CryptoCreate.symbol := "eth" |} w_listing_eth)))
    by (vm_compute; reflexivity).
  split; [exact Hinv|].
  exact (proj1 (create_then_get_returns_the_row w_listing_eth _ _ eth_row Hinv Hc)).
Defined.

Lemma X11_witness :
  Str.ci_equal "ETH" "eth" = true
  /\ fst (create_crypto {| CryptoCreate.symbol := "ETH" |}
            (snd (create_crypto {| CryptoCreate.symbol := "eth" |} w_listing_eth)))
     = Raise (HTTPException 409 duplicate_detail).
Proof.
  assert (Hc : create_crypto {| CryptoCreate.symbol := "eth" |} w_listing_eth
               = (Ok eth_row,
                  snd (create_crypto {| CryptoCreate.symbol := "eth" |} w_listing_eth)))
    by (vm_compute; reflexivity).
  split; [reflexivity|].
  rewrite (second_create_conflicts_in_any_case
             w_listing_eth _ {| CryptoCreate.symbol := "eth" |}
             {| CryptoCreate.symbol := "ETH" |} eth_row Hc eq_refl).
  reflexivity.
Defined.

Lemma X12_witness :
  delete_crypto 2147483648 w_tracking_btc = (Raise DataError, w_tracking_btc)
  /\ delete_crypto 7 w_tracking_btc
     = (Raise (HTTPException 404 absent_detail), w_tracking_btc)
  /\ fst (delete_crypto 1 w_tracking_btc) = Ok tt
  /\ get_crypto 1 (snd (delete_crypto 1 w_tracking_btc))
     = (Raise (HTTPException 404 absent_detail), snd (delete_crypto 1 w_tracking_btc)).
Proof.
  destruct (delete_removes_the_row_only w_tracking_btc 2147483648) as (Hwide & _).
  destruct (delete_removes_the_row_only w_tracking_btc 7) as (Habsent & _).
  destruct (delete_removes_the_row_only w_tracking_btc 1) as (_ & Hheld & _).
  destruct (Hheld btc_row eq_refl eq_refl) as (Hok & Hgone & _).
  split; [exact (Hwide eq_refl)|]. split; [exact (Habsent eq_refl)|].
  split; [exact Hok | exact Hgone].
Defined.

Lemma X13_witness :
  table_ok (cryptos w_stale)
  /\ find_id 1 (cryptos w_stale) = Some stale_row
  /\ fst (refresh_crypto 1 w_stale)
     = Ok {| Crypto.id := 1; Crypto.symbol := "BTC"; Crypto.name := Some "Bitcoin";
             Crypto.metadata := btc |}.
Proof.
  assert (Hok : table_ok (cryptos w_stale)) by (split; apply NoDup_singleton).
  assert (Hfind : find_id 1 (cryptos w_stale) = Some stale_row) by reflexivity.
  assert (Hf : fetch_coin_metadata (Crypto.symbol stale_row) w_stale
               = (Ok btc, snd (fetch_coin_metadata "BTC" w_stale)))
    by (vm_compute; reflexivity).
  split; [exact Hok|]. split; [exact Hfind|].
  exact (proj1 (refresh_overwrites_name_and_metadata
                  w_stale _ 1 stale_row btc (JStr "Bitcoin") (Some "Bitcoin")
                  Hok Hfind Hf eq_refl eq_refl eq_refl)).
Defined.

Lemma X14_witness :
  find_id 1 (cryptos w_listing_eth) = Some btc_row
  /\ fst (update_crypto 1 {| CryptoUpdate.symbol := Some "eth" |} w_listing_eth)
     = Ok {| Crypto.id := 1; Crypto.symbol := "ETH"; Crypto.name := Some "Ethereum";
             Crypto.metadata := eth |}.
Proof.
  assert (Hfind : find_id 1 (cryptos w_listing_eth) = Some btc_row) by reflexivity.
  assert (Hfree : forall x, In x (cryptos w_listing_eth) ->
                            Crypto.symbol x = Str.upper "eth" -> Crypto.id x = 1).
  { intros x [<- | []] _. reflexivity. }
  assert (Hf : fetch_coin_metadata "eth" w_listing_eth
               = (Ok eth, snd (fetch_coin_metadata "eth" w_listing_eth)))
    by (vm_compute; reflexivity).
  split; [exact Hfind|].
  exact (proj1 (update_renames_the_row
                  w_listing_eth _ 1 btc_row "e"%char "th" eth (JStr "Ethereum")
                  (Some "Ethereum") Hfind Hfree Hf eq_refl eq_refl eq_refl)).
Defined.

Lemma X15_witness :
  find_id 1 (cryptos w_tracking_both) = Some btc_row
  /\ In eth_row (cryptos w_tracking_both)
  /\ update_crypto 1 {| CryptoUpdate.symbol := Some "eth" |} w_tracking_both
     = (Raise UniqueViolationError, snd (fetch_coin_metadata "eth" w_tracking_both))
  /\ redis_writes (trace (snd (fetch_coin_metadata "eth" w_tracking_both))) = 1%nat.
Proof.
  assert (Hfind : find_id 1 (cryptos w_tracking_both) = Some btc_row) by reflexivity.
  assert (Hin : In eth_row (cryptos w_tracking_both)) by (right; left; reflexivity).
  assert (Hf : fetch_coin_metadata "eth" w_tracking_both
               = (Ok eth, snd (fetch_coin_metadata "eth" w_tracking_both)))
    by (vm_compute; reflexivity).
  split; [exact Hfind|]. split; [exact Hin|]. split; [|vm_compute; reflexivity].
  refine (proj1 (update_to_a_held_symbol_violates_the_constraint
                   w_tracking_both _ 1 btc_row eth_row "e"%char "th" eth (JStr "Ethereum")
                   (Some "Ethereum") Hfind Hin eq_refl _ Hf eq_refl eq_refl eq_refl)).
  discriminate.
Defined.

Lemma X17_witness :
  table_inv w_fresh /\ cache_miss w_fresh "btc"
  /\ fst (refresh_crypto 1
            (advance 10 (snd (create_crypto {| CryptoCreate.symbol := "btc" |} w_fresh))))
     = Ok btc_row
  /\ http_calls (trace (snd (refresh_crypto 1
            (advance 10 (snd (create_crypto {| CryptoCreate.symbol := "btc" |} w_fresh))))))
     = 1%nat.
Proof.
  assert (Hinv : table_inv w_fresh) by (apply sample_table_inv; reflexivity).
  assert (Hmiss : cache_miss w_fresh "btc") by apply miss_on_empty_redis.
  assert (Hc : create_crypto {| CryptoCreate.symbol := "btc" |} w_fresh
               = (Ok btc_row, snd (create_crypto {| CryptoCreate.symbol := "btc" |} w_fresh)))
    by (vm_compute; reflexivity).
  destruct (refresh_soon_after_create_is_served_by_the_cache
              w_fresh _ {| CryptoCreate.symbol := "btc" |} btc_row 10
              Hinv eq_refl Hmiss Hc eq_refl ltac:(lia)) as (Hr & _ & Hcalls & _).
  split; [exact Hinv|]. split; [exact Hmiss|]. split.
  - change (Crypto.id btc_row) with 1 in Hr. rewrite Hr. reflexivity.
  - change (Crypto.id btc_row) with 1 in Hcalls. rewrite Hcalls.
    vm_compute. reflexivity.
Defined.

Lemma X18_witness :
  Json.wf (search_body [btc2; btc; eth]) = true
  /\ Json.loads (Json.dumps (search_body [btc2; btc; eth]))
     = Ok (search_body [btc2; btc; eth]).
Proof.
  assert (Hwf : Json.wf (search_body [btc2; btc; eth]) = true) by reflexivity.
  split; [exact Hwf|].
  exact (proj1 (cached_text_determines_the_record _ Hwf)).
Defined.
